(** * Fine-tuning drivers of ex_llm: a shallow embedding

    The development follows the two training scripts
    [ai-server/scripts/train_rust_elixir_t5.py] (the language-aware driver,
    module [RustElixir]) and [llm-server/scripts/train_codet5.py] (the base
    driver, module [CodeT5]), and the prompt and the sample reader of
    [ai-server/scripts/eval_codet5.py] (module [EvalCodeT5]):

    - Python strings are sequences of Unicode code points;
    - losses are real numbers, with an extra point for torch's [nan];
    - exceptions are an error monad;
    - the tokenizer and the model's forward pass are parameters;
    - the accelerator's gradient-accumulation bookkeeping is explicit state
      threaded through the training loop, which returns its trace.

    Formatted string literals are scanned as the Python compiler scans them.
    One literal of the language-aware driver is refused by the compiler
    (l. 173, a replacement field without an expression).  Python reports
    this when it compiles the script; here the error is raised where the
    literal would be evaluated, so that the rest of the script can still be
    studied.

    Part I holds the definitions, Part II the lemmas and theorems, Part III
    further properties of the scripts. *)

From Stdlib Require Import String Ascii.
From Stdlib Require Import ZArith NArith Bool Arith Lia.
From Stdlib Require Import Reals Lra.
From Stdlib Require Import List.
Import ListNotations.

(** * Part I: definitions *)

(** ** Exceptions *)

Inductive exn : Set :=
| SyntaxError
| NameError
| ValueError
| ZeroDivisionError
| AttributeError.

Inductive result (A : Type) : Type :=
| Ok (a : A)
| Raise (e : exn).

Arguments Ok {A} a.
Arguments Raise {A} e.

Definition bind {A B : Type} (c : result A) (k : A -> result B) : result B :=
  match c with
  | Ok a => k a
  | Raise e => Raise e
  end.

Notation "x <- c ;; k" := (bind c (fun x => k))
  (at level 61, c at next level, right associativity).

Definition result_map {A B : Type} (f : A -> B) (c : result A) : result B :=
  x <- c ;; Ok (f x).

(** [a % b] and [a // b] on non-negative integers. *)
Definition py_mod (a b : nat) : result nat :=
  if b =? 0 then Raise ZeroDivisionError else Ok (a mod b).

Definition py_floordiv (a b : nat) : result nat :=
  if b =? 0 then Raise ZeroDivisionError else Ok (a / b).

(** [math.ceil(a / b)] on non-negative integers. *)
Definition py_ceildiv (a b : nat) : result nat :=
  if b =? 0 then Raise ZeroDivisionError else Ok ((a + b - 1) / b).

(** [enumerate(l)], counting from [i]. *)
Fixpoint enumerate_from {A : Type} (i : nat) (l : list A) : list (nat * A) :=
  match l with
  | [] => []
  | x :: l' => (i, x) :: enumerate_from (S i) l'
  end.

Definition enumerate {A : Type} (l : list A) : list (nat * A) :=
  enumerate_from 0 l.

(** [l[i:i+1]] *)
Definition slice1 {A : Type} (i : nat) (l : list A) : list A :=
  firstn 1 (skipn i l).

(** ** Python strings *)

Module PyStr.

(** A [str] is a sequence of code points. *)
Definition char := N.
Definition str := list char.

(** A string literal of the source (all of them are ASCII). *)
Definition lit (s : string) : str :=
  List.map N_of_ascii (list_ascii_of_string s).

Arguments lit s%_string.

(** The escape [\n]. *)
Definition nl : str := [10%N].

(** [a == b] *)
Fixpoint eqb (a b : str) : bool :=
  match a, b with
  | [], [] => true
  | x :: a', y :: b' => N.eqb x y && eqb a' b'
  | _, _ => false
  end.

(** [s.startswith(p)] *)
Fixpoint startswith (p s : str) : bool :=
  match p, s with
  | [], _ => true
  | _ :: _, [] => false
  | a :: p', b :: s' => N.eqb a b && startswith p' s'
  end.

(** [needle in hay]: the needle starts at some position of [hay]. *)
Fixpoint contains (needle hay : str) : bool :=
  match hay with
  | [] => startswith needle []
  | _ :: hay' => startswith needle hay || contains needle hay'
  end.

(** [c.isspace()]: the code points [str.strip()] removes. *)
Definition isspace (c : char) : bool :=
  ((9 <=? c) && (c <=? 13)
   || (28 <=? c) && (c <=? 32)
   || (c =? 133) || (c =? 160) || (c =? 5760)
   || (8192 <=? c) && (c <=? 8202)
   || (c =? 8232) || (c =? 8233) || (c =? 8239) || (c =? 8287)
   || (c =? 12288))%N.

(** [s.lstrip()], [s.rstrip()] and [s.strip()] *)
Fixpoint lstrip (s : str) : str :=
  match s with
  | [] => []
  | c :: s' => if isspace c then lstrip s' else s
  end.

Definition rstrip (s : str) : str := rev (lstrip (rev s)).

Definition strip (s : str) : str := rstrip (lstrip s).

(** *** Formatted string literals

    An f-string is scanned into literal text and replacement fields
    [{expression}] or [{expression:spec}]; [{{] and [}}] stand for one brace.
    A replacement field needs an expression: the compiler refuses an empty
    one, as it refuses a single closing brace.  The literals of the two
    scripts only ever name a local variable in a field; conversions, nested
    fields and brackets inside expressions are not modelled. *)

Inductive fpart : Type :=
| FText (text : str)
| FField (expression spec : str).

Inductive fmode : Type :=
| InText
| InExpression (seen : str)
| InSpec (expression seen : str).

Definition lbrace : char := 123%N.
Definition rbrace : char := 125%N.
Definition colon : char := 58%N.

Definition ftext (c : char) (parts : list fpart) : list fpart :=
  match parts with
  | FText t :: parts' => FText (c :: t) :: parts'
  | _ => FText [c] :: parts
  end.

Definition is_empty (s : str) : bool :=
  match s with
  | [] => true
  | _ :: _ => false
  end.

(** [seen] holds the characters of the current field, last one first. *)
Fixpoint fscan (m : fmode) (s : str) : result (list fpart) :=
  match m, s with
  | InText, [] => Ok []
  | InText, c :: s' =>
      if N.eqb c lbrace then
        match s' with
        | d :: s'' =>
            if N.eqb d lbrace
            then parts <- fscan InText s'' ;; Ok (ftext lbrace parts)
            else fscan (InExpression []) s'
        | [] => Raise SyntaxError
        end
      else if N.eqb c rbrace then
        match s' with
        | d :: s'' =>
            if N.eqb d rbrace
            then parts <- fscan InText s'' ;; Ok (ftext rbrace parts)
            else Raise SyntaxError
        | [] => Raise SyntaxError
        end
      else parts <- fscan InText s' ;; Ok (ftext c parts)
  | InExpression _, [] => Raise SyntaxError
  | InExpression seen, c :: s' =>
      if N.eqb c rbrace then
        if is_empty (strip (rev seen)) then Raise SyntaxError
        else parts <- fscan InText s' ;; Ok (FField (strip (rev seen)) [] :: parts)
      else if N.eqb c colon then
        if is_empty (strip (rev seen)) then Raise SyntaxError
        else fscan (InSpec (strip (rev seen)) []) s'
      else fscan (InExpression (c :: seen)) s'
  | InSpec _ _, [] => Raise SyntaxError
  | InSpec e seen, c :: s' =>
      if N.eqb c rbrace
      then parts <- fscan InText s' ;; Ok (FField e (rev seen) :: parts)
      else fscan (InSpec e (c :: seen)) s'
  end.

(** The local variables a literal may name. *)
Definition env := list (str * str).

Fixpoint lookup (name : str) (locals : env) : result str :=
  match locals with
  | [] => Raise NameError
  | (n, v) :: locals' => if eqb n name then Ok v else lookup name locals'
  end.

(** A field with an empty spec is [str(value)]; the format mini-language is
    not modelled (no field of the scripts that has an expression has a spec). *)
Fixpoint feval (locals : env) (parts : list fpart) : result str :=
  match parts with
  | [] => Ok []
  | FText t :: parts' => rest <- feval locals parts' ;; Ok (t ++ rest)
  | FField e spec :: parts' =>
      v <- lookup e locals ;;
      if is_empty spec
      then rest <- feval locals parts' ;; Ok (v ++ rest)
      else Raise ValueError
  end.

(** [f"..."] with the local variables [locals]. *)
Definition fstring (locals : env) (literal : str) : result str :=
  parts <- fscan InText literal ;; feval locals parts.

(** *** What searching and trimming mean *)

(** [needle] occurs in [hay]. *)
Definition Substring (needle hay : str) : Prop :=
  exists pre post, hay = pre ++ needle ++ post.

Definition all_space (s : str) : Prop :=
  Forall (fun c => isspace c = true) s.

Definition no_leading_space (s : str) : Prop :=
  match s with
  | [] => True
  | c :: _ => isspace c = false
  end.

Definition no_trailing_space (s : str) : Prop :=
  no_leading_space (rev s).

(** [t] is [raw] without its trailing whitespace. *)
Definition trimmed_right (raw t : str) : Prop :=
  exists post, raw = t ++ post /\ all_space post /\ no_trailing_space t.

(** [t] is [raw] without its leading and trailing whitespace. *)
Definition trimmed_both (raw t : str) : Prop :=
  exists pre post,
    raw = pre ++ t ++ post /\ all_space pre /\ all_space post
    /\ no_leading_space t /\ no_trailing_space t.

End PyStr.

Import PyStr.

(** ** Tensors and the loss of torch *)

Module Torch.

(** A scalar tensor, or a float: a real number or [nan]. *)
Inductive scalar : Type :=
| Real (x : R)
| NaN.

Definition sadd (a b : scalar) : scalar :=
  match a, b with
  | Real x, Real y => Real (x + y)
  | _, _ => NaN
  end.

(** [a * w] and [a / n] for a float [w] and a non-zero number [n] *)
Definition sscale (a : scalar) (w : R) : scalar :=
  match a with
  | Real x => Real (x * w)
  | NaN => NaN
  end.

Definition sdiv (a : scalar) (n : nat) : scalar :=
  match a with
  | Real x => Real (x / INR n)
  | NaN => NaN
  end.

Definition sexp (a : scalar) : scalar :=
  match a with
  | Real x => Real (exp x)
  | NaN => NaN
  end.

Definition rsum (l : list R) : R := fold_right Rplus 0%R l.

(** The label value left out of the loss. *)
Definition ignore_index : Z := (-100)%Z.

Definition kept (p : list R * Z) : bool := negb (Z.eqb (snd p) ignore_index).

(** The negative log-likelihood of class [t] under the logits [row]:
    [-log(softmax(row)[t])]. *)
Definition token_nll (p : list R * Z) : R :=
  (ln (rsum (map exp (fst p))) - nth (Z.to_nat (snd p)) (fst p) 0)%R.

(** [torch.nn.CrossEntropyLoss(ignore_index=-100)(input, target)], with
    [input] of shape (M, V) and [target] of shape (M): the mean of the token
    losses over the positions whose label is not ignored, [nan] when there is
    none.  Labels are token ids of the vocabulary (torch refuses others). *)
Definition cross_entropy_loss (input : list (list R)) (target : list Z) : scalar :=
  match filter kept (combine input target) with
  | [] => NaN
  | p :: ps => Real (rsum (map token_nll (p :: ps)) / INR (length (p :: ps)))
  end.

(** A collated batch: the keys of the dictionary the data loader yields.
    [language] and [quality_score] are present in the language-aware driver
    only. *)
Record Batch : Type := {
  input_ids : list (list Z);
  labels : list (list Z);
  language : option (list str);
  quality_score : option (list R)
}.

(** What the forward pass returns: logits of shape (B, T, V) and the model's
    own loss. *)
Record ModelOutput : Type := {
  logits : list (list (list R));
  loss : scalar
}.

(** The forward pass on a batch.  The scripts call the model with every key
    of the batch as a keyword argument (l. 282, l. 189), so [forward], the
    logits the network computes, is given the whole batch; the model's own
    loss is the token-level cross-entropy of these logits against the labels
    of the whole batch, label -100 ignored. *)
Definition model (forward : Batch -> list (list (list R)))
    (batch : Batch) : ModelOutput :=
  let lg := forward batch in
  {| logits := lg;
     loss := cross_entropy_loss (concat lg) (concat (labels batch)) |}.

(** The number of label positions of an example that enter the loss. *)
Definition count_kept (target : list Z) : nat :=
  length (filter (fun t => negb (Z.eqb t ignore_index)) target).

(** Logits and labels have the same number of examples, and of positions
    in each example. *)
Fixpoint same_shape (logits : list (list (list R))) (labels : list (list Z)) : bool :=
  match logits, labels with
  | [], [] => true
  | lg :: logits', lb :: labels' =>
      (length lg =? length lb) && same_shape logits' labels'
  | _, _ => false
  end.


(** A data loader: its declared length and the batches it yields in each
    epoch (the training loader shuffles at the start of every epoch). *)
Record DataLoader : Type := {
  len : nat;
  batches : nat -> list Batch
}.

End Torch.

Import Torch.

(** ** Gradient accumulation of the accelerator

    Both scripts build [Accelerator(gradient_accumulation_steps=K)] and run
    every micro-batch under [accelerator.accumulate(model)].  On entry the
    accelerator decides whether this micro-batch synchronizes gradients: at
    the last batch of the (prepared) data loader it does and the counter is
    reset, otherwise the counter advances and gradients are synchronized when
    it is a multiple of [K].  The wrapped [optimizer.step()] updates the
    parameters only when gradients are synchronized. *)

Module Accelerate.

Record GradientState : Type := {
  step : nat;
  sync_gradients : bool
}.

Definition initial : GradientState := {| step := 0; sync_gradients := true |}.

Definition accumulate (K : nat) (end_of_dataloader : bool) (g : GradientState)
    : result GradientState :=
  if end_of_dataloader
  then Ok {| step := 0; sync_gradients := true |}
  else r <- py_mod (S (step g)) K ;;
       Ok {| step := S (step g); sync_gradients := (r =? 0) |}.

End Accelerate.

(** ** The trace of a training run *)

Inductive event : Type :=
| Step (epoch step : nat) (update : bool) (logged : option (nat * scalar))
    (* one micro-batch: was the optimizer update applied, what was logged *)
| Eval (epoch : nat) (report : option scalar)
    (* the evaluation after an epoch and the figure it printed *)
| EpochMean (epoch : nat) (mean : scalar).

Definition is_update (e : event) : bool :=
  match e with
  | Step _ _ u _ => u
  | _ => false
  end.

(** The number of optimizer updates of a trace. *)
Definition optimizer_updates (trace : list event) : nat :=
  length (filter is_update trace).

Definition is_nil {A : Type} (l : list A) : bool :=
  match l with
  | [] => true
  | _ :: _ => false
  end.

(** A raw example with text fields: a JSON record whose [instruction],
    [input] and [output] are strings or absent.  ([JsonRow], further down,
    has the records with values of any kind.) *)
Record Row : Type := {
  row_instruction : option str;
  row_input : option str;
  row_output : option str;
  row_quality_score : option R
}.

(** [row.get(key, default)] *)
Definition get {A : Type} (field : option A) (default : A) : A :=
  match field with
  | Some v => v
  | None => default
  end.

(** The simplest tokenizer, for examples: one id per code point, truncated
    to [max_length]. *)
Definition code_points (text : str) (max_length : nat) : list Z :=
  firstn max_length (map Z.of_N text).

(** ** The language-aware driver, [train_rust_elixir_t5.py] *)

Module RustElixir.

Record RustElixirArgs : Type := {
  max_seq_len : nat;
  gradient_accumulation : nat;
  epochs : nat;
  log_every : nat;
  cross_language_learning : bool;
  rust_weight : R;
  elixir_weight : R
}.

(** l. 158-165 *)
Definition detect_language_from_content (content : str) : str :=
  if contains (lit "defmodule") content
     || contains (lit "def ") content
     || contains (lit "|>") content
  then lit "elixir"
  else if contains (lit "fn ") content
          || contains (lit "struct ") content
          || contains (lit "impl ") content
  then lit "rust"
  else lit "unknown".

(** The two marker families, as properties of the text. *)
Definition elixir_marked (content : str) : Prop :=
  Substring (lit "defmodule") content
  \/ Substring (lit "def ") content
  \/ Substring (lit "|>") content.

Definition rust_marked (content : str) : Prop :=
  Substring (lit "fn ") content
  \/ Substring (lit "struct ") content
  \/ Substring (lit "impl ") content.

(** The two f-string literals of l. 171 and l. 173, as they are written. *)
Definition rust_literal : str :=
  lit "{instruction}" ++ nl ++ nl
  ++ lit "Follow Rust best practices: use Result/Option for error handling, implement proper error types, add documentation with ///, use pattern matching with match, and follow ownership rules.".

Definition elixir_literal : str :=
  lit "{instruction}" ++ nl ++ nl
  ++ lit "Follow Elixir best practices: use pattern matching, implement proper error handling with {:ok, result} and {:error, reason}, add @doc documentation, use the pipe operator |> for data transformation, and follow OTP patterns.".

(** The text of the Rust literal after its field [{instruction}]. *)
Definition rust_guidance : str := skipn 13 rust_literal.

(** l. 168-175 *)
Definition enhance_instruction_for_language (instruction language : str) : result str :=
  if eqb language (lit "rust") then
    fstring [(lit "instruction", instruction)] rust_literal
  else if eqb language (lit "elixir") then
    fstring [(lit "instruction", instruction)] elixir_literal
  else Ok instruction.

(** One tokenized example. *)
Record Encoding : Type := {
  enc_input_ids : list Z;
  enc_labels : list Z;
  enc_language : str;
  enc_quality_score : R
}.

Definition prompt_literal : str :=
  lit "{enhanced_instruction}" ++ nl ++ nl ++ lit "Context: {src}" ++ nl ++ nl
  ++ lit "### Code Output".

(** l. 120-152; [tokenizer text max_length] is the encoder with truncation,
    [target_tokenizer] the one under [as_target_tokenizer()]. *)
Definition _format_rust_elixir (tokenizer target_tokenizer : str -> nat -> list Z)
    (args : RustElixirArgs) (row : Row) : result Encoding :=
  let instruction := strip (get (row_instruction row) []) in
  let src := rstrip (get (row_input row) []) in
  let tgt := rstrip (get (row_output row) []) in
  let language := detect_language_from_content tgt in
  enhanced_instruction <- enhance_instruction_for_language instruction language ;;
  prompt <- fstring [(lit "enhanced_instruction", enhanced_instruction);
                     (lit "src", src)] prompt_literal ;;
  Ok {| enc_input_ids := tokenizer prompt (max_seq_len args);
        enc_labels := target_tokenizer tgt (max_seq_len args);
        enc_language := language;
        enc_quality_score := get (row_quality_score row) 0%R |}.

(** l. 201-213; [logits] has shape (1, T, V) and [labels] shape (1, T) here,
    and [view] flattens the first two dimensions. *)
Definition calculate_weighted_loss (logits : list (list (list R)))
    (labels : list (list Z)) (language : str) (rust_weight elixir_weight : R)
    : scalar :=
  let loss := cross_entropy_loss (concat logits) (concat labels) in
  if eqb language (lit "rust") then sscale loss rust_weight
  else if eqb language (lit "elixir") then sscale loss elixir_weight
  else loss.

(** l. 282-299: the forward pass and the loss of one micro-batch.  The sum
    starts from the integer [0], so an empty list of languages divides
    [0 / 0]. *)
Definition batch_loss (forward : Batch -> list (list (list R)))
    (args : RustElixirArgs) (batch : Batch) : result scalar :=
  let outputs := model forward batch in
  match cross_language_learning args, language batch with
  | true, Some languages =>
      let total_loss :=
        fold_left
          (fun total il =>
             sadd total
               (calculate_weighted_loss
                  (slice1 (fst il) (logits outputs))
                  (slice1 (fst il) (labels batch))
                  (snd il) (rust_weight args) (elixir_weight args)))
          (enumerate languages) (Real 0) in
      if length languages =? 0 then Raise ZeroDivisionError
      else Ok (sdiv total_loss (length languages))
  | _, _ => Ok (loss outputs)
  end.

(** l. 280-314: the micro-batches of one epoch, from index [step] on. *)
Fixpoint train_epoch (forward : Batch -> list (list (list R)))
    (args : RustElixirArgs) (epoch step : nat) (todo : list Batch)
    (g : Accelerate.GradientState)
    : result (Accelerate.GradientState * list event) :=
  match todo with
  | [] => Ok (g, [])
  | batch :: rest =>
      g1 <- Accelerate.accumulate (gradient_accumulation args) (is_nil rest) g ;;
      loss <- batch_loss forward args batch ;;
      logged <- (if Accelerate.sync_gradients g1
                 then r <- py_mod step (log_every args) ;;
                      Ok (if r =? 0 then Some (step, loss) else None)
                 else Ok None) ;;
      more <- train_epoch forward args epoch (S step) rest g1 ;;
      Ok (fst more, Step epoch step (Accelerate.sync_gradients g1) logged :: snd more)
  end.

(** l. 317-330: the evaluation after an epoch. *)
Definition evaluation (forward : Batch -> list (list (list R)))
    (eval_batches : list Batch) : result scalar :=
  let acc :=
    fold_left
      (fun acc batch => (sadd (fst acc) (loss (model forward batch)), S (snd acc)))
      eval_batches (Real 0, 0) in
  let eval_loss := fst acc in
  let eval_steps := snd acc in
  if eval_steps =? 0 then Raise ZeroDivisionError
  else Ok (sdiv eval_loss eval_steps).

(** l. 279-330: the epochs [epoch], [epoch + 1], ... ([todo] of them). *)
Fixpoint train_epochs (forward : Batch -> list (list (list R)))
    (args : RustElixirArgs) (train_dl : DataLoader) (eval_dl : option DataLoader)
    (epoch todo : nat) (g : Accelerate.GradientState) : result (list event) :=
  match todo with
  | 0 => Ok []
  | S todo' =>
      run <- train_epoch forward args epoch 0 (batches train_dl epoch) g ;;
      evals <- match eval_dl with
               | Some dl =>
                   avg_eval_loss <- evaluation forward (batches dl epoch) ;;
                   Ok [Eval epoch (Some avg_eval_loss)]
               | None => Ok []
               end ;;
      more <- train_epochs forward args train_dl eval_dl (S epoch) todo' (fst run) ;;
      Ok (snd run ++ evals ++ more)
  end.

(** l. 263: the number of steps the scheduler and the progress bar are
    given. *)
Definition num_training_steps (args : RustElixirArgs) (train_dl : DataLoader) : result nat :=
  py_floordiv (len train_dl * epochs args) (gradient_accumulation args).

(** l. 216-330: the declared number of steps and the trace of the run. *)
Definition train (forward : Batch -> list (list (list R)))
    (args : RustElixirArgs) (train_dl : DataLoader) (eval_dl : option DataLoader)
    : result (nat * list event) :=
  declared <- num_training_steps args train_dl ;;
  trace <- train_epochs forward args train_dl eval_dl 0 (epochs args) Accelerate.initial ;;
  Ok (declared, trace).

End RustElixir.

(** ** The base driver, [train_codet5.py] *)

Module CodeT5.

Record Args : Type := {
  max_seq_len : nat;
  gradient_accumulation : nat;
  epochs : nat;
  log_every : nat
}.

Record Encoding : Type := {
  enc_input_ids : list Z;
  enc_labels : list Z
}.

Definition prompt_literal : str :=
  lit "{instruction}" ++ nl ++ nl ++ lit "{src}" ++ nl ++ nl
  ++ lit "### Desired Output".

(** l. 95-112 *)
Definition _format (tokenizer target_tokenizer : str -> nat -> list Z)
    (args : Args) (row : Row) : result Encoding :=
  let instruction := strip (get (row_instruction row) []) in
  let src := rstrip (get (row_input row) []) in
  let tgt := rstrip (get (row_output row) []) in
  prompt <- fstring [(lit "instruction", instruction); (lit "src", src)]
              prompt_literal ;;
  Ok {| enc_input_ids := tokenizer prompt (max_seq_len args);
        enc_labels := target_tokenizer tgt (max_seq_len args) |}.

(** The normalization as the specification words it: every field trimmed
    on both sides. *)
Definition format_trimming_both_sides (tokenizer target_tokenizer : str -> nat -> list Z)
    (args : Args) (row : Row) : Encoding :=
  let instruction := strip (get (row_instruction row) []) in
  let src := strip (get (row_input row) []) in
  let tgt := strip (get (row_output row) []) in
  {| enc_input_ids :=
       tokenizer (instruction ++ nl ++ nl ++ src ++ nl ++ nl ++ lit "### Desired Output")
         (max_seq_len args);
     enc_labels := target_tokenizer tgt (max_seq_len args) |}.

(** The state of the loop: the accelerator, [total_loss] (a float until the
    first loss tensor is added) and [global_step]. *)
Record LoopState : Type := {
  gradient_state : Accelerate.GradientState;
  total_loss : scalar;
  global_step : nat
}.

(** l. 188-204: the micro-batches of one epoch, from index [step] on.
    [is_local_main_process] guards the log line; the learning rate it also
    shows belongs to the scheduler and is left out. *)
Fixpoint train_epoch (forward : Batch -> list (list (list R)))
    (args : Args) (is_local_main_process : bool) (epoch step : nat)
    (todo : list Batch) (st : LoopState) : result (LoopState * list event) :=
  match todo with
  | [] => Ok (st, [])
  | batch :: rest =>
      g1 <- Accelerate.accumulate (gradient_accumulation args) (is_nil rest)
              (gradient_state st) ;;
      let loss := loss (model forward batch) in
      let total_loss := sadd (total_loss st) loss in
      let global_step := S (global_step st) in
      logged <- (if is_local_main_process
                 then r <- py_mod global_step (log_every args) ;;
                      Ok (if r =? 0
                          then Some (global_step, sdiv total_loss (step + 1))
                          else None)
                 else Ok None) ;;
      more <- train_epoch forward args is_local_main_process epoch (S step) rest
                {| gradient_state := g1;
                   total_loss := total_loss;
                   global_step := global_step |} ;;
      Ok (fst more, Step epoch step (Accelerate.sync_gradients g1) logged :: snd more)
  end.

(** [torch.cat(losses).mean()] *)
Definition mean (losses : list scalar) : scalar :=
  sdiv (fold_left sadd losses (Real 0)) (length losses).

(** l. 220-231: the perplexity printed, if any, as one process sees it:
    [accelerator.gather] is taken to return the loss it is given, and the
    mean is over the losses of the batches. *)
Definition evaluate (forward : Batch -> list (list (list R)))
    (eval_batches : list Batch) : option scalar :=
  let losses := map (fun batch => loss (model forward batch)) eval_batches in
  if is_nil losses then None
  else Some (sexp (mean losses)).

(** l. 209: [total_loss / len(train_dl)]; [total_loss] is still the float
    [0.0] when the epoch had no batch. *)
Definition epoch_mean (train_dl : DataLoader) (epoch : nat) (total_loss : scalar)
    : result scalar :=
  if len train_dl =? 0 then
    if is_nil (batches train_dl epoch) then Raise ZeroDivisionError
    else Ok NaN
  else Ok (sdiv total_loss (len train_dl)).

(** l. 182-209: the epochs [epoch], [epoch + 1], ... ([todo] of them). *)
Fixpoint train_epochs (forward : Batch -> list (list (list R)))
    (args : Args) (is_local_main_process : bool)
    (train_dl : DataLoader) (eval_dl : option DataLoader)
    (epoch todo : nat) (g : Accelerate.GradientState) (global_step : nat)
    : result (list event) :=
  match todo with
  | 0 => Ok []
  | S todo' =>
      run <- train_epoch forward args is_local_main_process epoch 0
               (batches train_dl epoch)
               {| gradient_state := g;
                  total_loss := Real 0;
                  global_step := global_step |} ;;
      let evals := match eval_dl with
                   | Some dl => [Eval epoch (evaluate forward (batches dl epoch))]
                   | None => []
                   end in
      mean_loss <- epoch_mean train_dl epoch (total_loss (fst run)) ;;
      more <- train_epochs forward args is_local_main_process train_dl eval_dl
                (S epoch) todo' (gradient_state (fst run)) (CodeT5.global_step (fst run)) ;;
      Ok (snd run ++ evals ++ EpochMean epoch mean_loss :: more)
  end.

(** l. 165-166: the number of steps the scheduler is given. *)
Definition max_train_steps (args : Args) (train_dl : DataLoader) : result nat :=
  num_update_steps_per_epoch <- py_ceildiv (len train_dl) (gradient_accumulation args) ;;
  Ok (num_update_steps_per_epoch * epochs args).

(** l. 136-209: the declared number of steps and the trace of the run. *)
Definition train (forward : Batch -> list (list (list R)))
    (args : Args) (is_local_main_process : bool)
    (train_dl : DataLoader) (eval_dl : option DataLoader)
    : result (nat * list event) :=
  declared <- max_train_steps args train_dl ;;
  trace <- train_epochs forward args is_local_main_process train_dl eval_dl
             0 (epochs args) Accelerate.initial 0 ;;
  Ok (declared, trace).

End CodeT5.

(** ** Loading the data, and the evaluation script *)

(** [Dataset.map(f)] over the records of a split, in order: the first record
    on which [f] raises stops the mapping. *)
Fixpoint map_rows {A B : Type} (f : A -> result B) (rows : list A) : result (list B) :=
  match rows with
  | [] => Ok []
  | row :: rows' =>
      entry <- f row ;;
      entries <- map_rows f rows' ;;
      Ok (entry :: entries)
  end.

(** The tokenised splits: ["train"], and ["validation"] when there is one. *)
Record Splits (E : Type) : Type := {
  split_train : list E;
  split_validation : option (list E)
}.

Arguments split_train {E} s.
Arguments split_validation {E} s.

(** [load_datasets] of both scripts ([train_codet5.py] l. 88-115,
    [train_rust_elixir_t5.py] l. 112-155), for the normalizer [format] of the
    script.  [read path] stands for the records [load_dataset("json", ...)]
    reads from a file; the evaluation file is read when [args.eval_file] is
    truthy, that is neither [None] nor the empty string. *)
Definition load_datasets {A E : Type} (read : str -> list A) (format : A -> result E)
    (train_file : str) (eval_file : option str) : result (Splits E) :=
  train <- map_rows format (read train_file) ;;
  match eval_file with
  | Some path =>
      if is_empty path then Ok {| split_train := train; split_validation := None |}
      else validation <- map_rows format (read path) ;;
           Ok {| split_train := train; split_validation := Some validation |}
  | None => Ok {| split_train := train; split_validation := None |}
  end.

(** The records [load_datasets] normalizes. *)
Definition records_read {A : Type} (read : str -> list A) (train_file : str)
    (eval_file : option str) : list A :=
  read train_file
  ++ match eval_file with
     | Some path => if is_empty path then [] else read path
     | None => []
     end.

(** A value of a JSON record, as Python holds it.  (Values are only
    analysed by cases, so no induction principle is generated.) *)
Local Unset Elimination Schemes.

Inductive value : Type :=
| VNone
| VBool (b : bool)
| VInt (n : Z)
| VFloat (x : R)
| VStr (s : str)
| VList (items : list value)
| VDict (items : list (str * value)).

Local Set Elimination Schemes.

(** The keys of a record the normalizers read, each absent or holding any
    value. *)
Record JsonRow : Type := {
  json_instruction : option value;
  json_input : option value;
  json_output : option value
}.

(** The receiver of [.strip()] and [.rstrip()]: of the values of a record
    only a string has these attributes. *)
Definition text_of (v : value) : result str :=
  match v with
  | VStr s => Ok s
  | _ => Raise AttributeError
  end.

(** [row.get(key, <the empty string>)] as the receiver of a string method:
    the default stands in for an absent key only, a key that is present
    gives its value whatever it is. *)
Definition text_field (field : option value) : result (option str) :=
  match field with
  | None => Ok None
  | Some v => s <- text_of v ;; Ok (Some s)
  end.

(** [_format] of [train_codet5.py] (l. 95-112) on any record: the three
    method calls of l. 96-98 come first and in this order; [_format] does
    not read the quality score. *)
Definition _format_raw (tokenizer target_tokenizer : str -> nat -> list Z)
    (args : CodeT5.Args) (raw : JsonRow) : result CodeT5.Encoding :=
  instruction <- text_field (json_instruction raw) ;;
  src <- text_field (json_input raw) ;;
  tgt <- text_field (json_output raw) ;;
  CodeT5._format tokenizer target_tokenizer args
    {| row_instruction := instruction;
       row_input := src;
       row_output := tgt;
       row_quality_score := None |}.

(** The field is absent or a string. *)
Definition is_text (field : option value) : bool :=
  match field with
  | None | Some (VStr _) => true
  | Some _ => false
  end.

(** One of the three fields of the record is present and not a string. *)
Definition malformed (raw : JsonRow) : bool :=
  negb (is_text (json_instruction raw) && is_text (json_input raw)
        && is_text (json_output raw)).

Module EvalCodeT5.

(** [eval_codet5.py], l. 38-43, consumed by [list(...)] at l. 56: the lines of
    the file from index [idx] on; [loads] is [json.loads].  [limit] is an
    integer of the command line: a limit of zero is falsy and does not stop
    the loop. *)
Fixpoint stream_examples_from (loads : str -> result Row) (limit : Z) (idx : nat)
    (lines : list str) : result (list Row) :=
  match lines with
  | [] => Ok []
  | line :: lines' =>
      if negb (Z.eqb limit 0) && (limit <=? Z.of_nat idx)%Z then Ok []
      else sample <- loads line ;;
           more <- stream_examples_from loads limit (S idx) lines' ;;
           Ok (sample :: more)
  end.

Definition stream_examples (loads : str -> result Row) (lines : list str) (limit : Z)
    : result (list Row) :=
  stream_examples_from loads limit 0 lines.

Definition prompt_literal : str :=
  lit "{instruction}" ++ nl ++ nl ++ lit "{source}" ++ nl ++ nl
  ++ lit "### Desired Output".

(** l. 58-61: the prompt the fine-tuned model is asked to complete. *)
Definition prompt (sample : Row) : result str :=
  let instruction := strip (get (row_instruction sample) []) in
  let source := strip (get (row_input sample) []) in
  fstring [(lit "instruction", instruction); (lit "source", source)] prompt_literal.

End EvalCodeT5.

(** ** Reading a trace *)

(** What an event is about, without the numbers it carries. *)
Inductive mark : Type :=
| StepAt (epoch step : nat)
| EvalAt (epoch : nat)
| MeanAt (epoch : nat).

Definition mark_of (e : event) : mark :=
  match e with
  | Step epoch step _ _ => StepAt epoch step
  | Eval epoch _ => EvalAt epoch
  | EpochMean epoch _ => MeanAt epoch
  end.

(** The marks of [E] epochs over [N] batches, from epoch [first] on: the
    steps of the epoch in order, then its evaluation and its mean loss when
    the driver has them. *)
Definition epoch_marks (N : nat) (with_eval with_mean : bool) (epoch : nat) : list mark :=
  map (StepAt epoch) (seq 0 N)
  ++ (if with_eval then [EvalAt epoch] else [])
  ++ (if with_mean then [MeanAt epoch] else []).

Definition run_marks (N E : nat) (with_eval with_mean : bool) (first : nat) : list mark :=
  flat_map (epoch_marks N with_eval with_mean) (seq first E).

Definition is_some {A : Type} (o : option A) : bool :=
  match o with
  | Some _ => true
  | None => false
  end.

Definition is_logged (e : event) : bool :=
  match e with
  | Step _ _ _ (Some _) => true
  | _ => false
  end.

(** The number of loss lines a run logs. *)
Definition logged_lines (trace : list event) : nat :=
  length (filter is_logged trace).

(** The computation raises nothing but [ZeroDivisionError]. *)
Definition only_zero_division {A : Type} (c : result A) : Prop :=
  forall e, c = Raise e -> e = ZeroDivisionError.

(** The string starts with a whitespace character. *)
Definition starts_with_space (s : str) : bool :=
  match s with
  | [] => false
  | c :: _ => isspace c
  end.

(** The arguments with another [--rust-weight], or [--elixir-weight]. *)
Definition with_rust_weight (w : R) (args : RustElixir.RustElixirArgs)
    : RustElixir.RustElixirArgs :=
  {| RustElixir.max_seq_len := RustElixir.max_seq_len args;
     RustElixir.gradient_accumulation := RustElixir.gradient_accumulation args;
     RustElixir.epochs := RustElixir.epochs args;
     RustElixir.log_every := RustElixir.log_every args;
     RustElixir.cross_language_learning := RustElixir.cross_language_learning args;
     RustElixir.rust_weight := w;
     RustElixir.elixir_weight := RustElixir.elixir_weight args |}.

Definition with_elixir_weight (w : R) (args : RustElixir.RustElixirArgs)
    : RustElixir.RustElixirArgs :=
  {| RustElixir.max_seq_len := RustElixir.max_seq_len args;
     RustElixir.gradient_accumulation := RustElixir.gradient_accumulation args;
     RustElixir.epochs := RustElixir.epochs args;
     RustElixir.log_every := RustElixir.log_every args;
     RustElixir.cross_language_learning := RustElixir.cross_language_learning args;
     RustElixir.rust_weight := RustElixir.rust_weight args;
     RustElixir.elixir_weight := w |}.

(** ** Concrete inputs for the examples *)

Module Examples.

Definition args : RustElixir.RustElixirArgs :=
  {| RustElixir.max_seq_len := 64;
     RustElixir.gradient_accumulation := 2;
     RustElixir.epochs := 1;
     RustElixir.log_every := 1;
     RustElixir.cross_language_learning := true;
     RustElixir.rust_weight := 1;
     RustElixir.elixir_weight := 1 |}.

(** A model over a vocabulary of two tokens whose logits are [0, 0] at
    every position of the first example and [1, 0] at every position of the
    second. *)
Definition forward (batch : Batch) : list (list (list R)) :=
  [[[0; 0]; [0; 0]]; [[1; 0]; [1; 0]]]%R.

(** Two examples with one and two label tokens: the collator pads the
    labels of the first with -100. *)
Definition uneven_batch : Batch :=
  {| input_ids := [[5; 6]; [7; 8]]%Z;
     labels := [[0; -100]; [1; 1]]%Z;
     language := Some [lit "rust"; lit "elixir"];
     quality_score := Some [0; 0]%R |}.

(** Two examples with two label tokens each. *)
Definition even_batch : Batch :=
  {| input_ids := [[5; 6]; [7; 8]]%Z;
     labels := [[0; 1]; [1; 1]]%Z;
     language := Some [lit "rust"; lit "unknown"];
     quality_score := Some [0; 0]%R |}.


Definition base_args : CodeT5.Args :=
  {| CodeT5.max_seq_len := 64;
     CodeT5.gradient_accumulation := 2;
     CodeT5.epochs := 1;
     CodeT5.log_every := 1 |}.



(** Three training batches in every epoch. *)
Definition train_dl : DataLoader :=
  {| len := 3; batches := fun _ => [even_batch; uneven_batch; even_batch] |}.

(** An evaluation set that yields no batch. *)
Definition empty_dl : DataLoader :=
  {| len := 0; batches := fun _ => [] |}.

End Examples.

Module MoreExamples.

(** A batch whose first example has no label left: all its positions are
    padding. *)
Definition padded_batch : Batch :=
  {| input_ids := [[5; 6]; [7; 8]]%Z;
     labels := [[-100; -100]; [1; 1]]%Z;
     language := Some [lit "rust"; lit "elixir"];
     quality_score := Some [0; 0]%R |}.

(** A batch without Rust examples. *)
Definition elixir_batch : Batch :=
  {| input_ids := [[5; 6]; [7; 8]]%Z;
     labels := [[0; 1]; [1; 1]]%Z;
     language := Some [lit "elixir"; lit "unknown"];
     quality_score := Some [0; 0]%R |}.

(** A window of two and a logging interval of two, over one epoch. *)
Definition even_args : RustElixir.RustElixirArgs :=
  {| RustElixir.max_seq_len := 64;
     RustElixir.gradient_accumulation := 2;
     RustElixir.epochs := 1;
     RustElixir.log_every := 2;
     RustElixir.cross_language_learning := true;
     RustElixir.rust_weight := 1;
     RustElixir.elixir_weight := 1 |}.

Definition base_args : CodeT5.Args :=
  {| CodeT5.max_seq_len := 64;
     CodeT5.gradient_accumulation := 2;
     CodeT5.epochs := 1;
     CodeT5.log_every := 2 |}.

(** The same with a logging interval of zero. *)
Definition silent_args : RustElixir.RustElixirArgs :=
  {| RustElixir.max_seq_len := 64;
     RustElixir.gradient_accumulation := 2;
     RustElixir.epochs := 1;
     RustElixir.log_every := 0;
     RustElixir.cross_language_learning := true;
     RustElixir.rust_weight := 1;
     RustElixir.elixir_weight := 1 |}.

Definition silent_base_args : CodeT5.Args :=
  {| CodeT5.max_seq_len := 64;
     CodeT5.gradient_accumulation := 2;
     CodeT5.epochs := 1;
     CodeT5.log_every := 0 |}.

(** One evaluation batch in every epoch. *)
Definition eval_dl : DataLoader :=
  {| len := 1; batches := fun _ => [Examples.even_batch] |}.

End MoreExamples.

(** * Part II: lemmas and theorems *)

(** ** The error monad *)

Lemma bind_ok {A B : Type} (a : A) (k : A -> result B) :
  (x <- Ok a ;; k x) = k a.
Proof. reflexivity. Qed.

Lemma bind_raise {A B : Type} (e : exn) (k : A -> result B) :
  (x <- Raise e ;; k x) = Raise e.
Proof. reflexivity. Qed.

Lemma py_mod_pos (a b : nat) : 0 < b -> py_mod a b = Ok (a mod b).
Proof.
  intros Hb. unfold py_mod. destruct (Nat.eqb_spec b 0); [lia | reflexivity].
Qed.

(** ** Strings *)

Lemma eqb_eq (a b : str) : eqb a b = true <-> a = b.
Proof.
  revert b. induction a as [|x a IH]; intros [|y b]; simpl;
    try (split; [discriminate | intros H; discriminate H]).
  - split; reflexivity.
  - rewrite andb_true_iff, N.eqb_eq, IH. split.
    + intros [-> ->]. reflexivity.
    + intros H. injection H as -> ->. split; reflexivity.
Qed.

Lemma startswith_spec (p s : str) :
  startswith p s = true <-> exists post, s = p ++ post.
Proof.
  revert s. induction p as [|a p IH]; intros s; simpl.
  - split; [intros _; now exists s | reflexivity].
  - destruct s as [|b s].
    + split; [discriminate | intros [post H]; discriminate].
    + rewrite andb_true_iff, N.eqb_eq, IH. split.
      * intros [-> [post ->]]. now exists post.
      * intros [post H]. injection H as -> ->.
        split; [reflexivity | now exists post].
Qed.

Lemma contains_spec (needle hay : str) :
  contains needle hay = true <-> Substring needle hay.
Proof.
  unfold Substring. induction hay as [|c hay IH]; simpl.
  - rewrite startswith_spec. split.
    + intros [post H]. now exists [], post.
    + intros [pre [post H]]. destruct pre; simpl in H.
      * now exists post.
      * discriminate.
  - rewrite orb_true_iff, IH, startswith_spec. split.
    + intros [[post H] | [pre [post H]]].
      * now exists [], post.
      * exists (c :: pre), post. simpl. now rewrite H.
    + intros [pre [post H]]. destruct pre as [|d pre]; simpl in H.
      * left. now exists post.
      * right. injection H as _ ->. now exists pre, post.
Qed.

(** *** Trimming *)

Lemma lstrip_spec (s : str) :
  exists pre, s = pre ++ lstrip s /\ all_space pre /\ no_leading_space (lstrip s).
Proof.
  induction s as [|c s [pre [Heq [Hpre Hno]]]].
  - exists []. repeat split. constructor.
  - simpl. destruct (isspace c) eqn:Hc.
    + exists (c :: pre). repeat split.
      * simpl. now rewrite <- Heq.
      * now constructor.
      * exact Hno.
    + exists []. repeat split; [constructor | exact Hc].
Qed.

Lemma all_space_rev (s : str) : all_space s -> all_space (rev s).
Proof. unfold all_space. apply Forall_rev. Qed.

Lemma rstrip_spec (s : str) : trimmed_right s (rstrip s).
Proof.
  unfold trimmed_right, rstrip, no_trailing_space.
  destruct (lstrip_spec (rev s)) as [pre [Heq [Hpre Hno]]].
  exists (rev pre). repeat split.
  - rewrite <- rev_app_distr, <- Heq. now rewrite rev_involutive.
  - now apply all_space_rev.
  - now rewrite rev_involutive.
Qed.

Lemma no_leading_space_prefix (t post : str) :
  no_leading_space (t ++ post) -> no_leading_space t.
Proof. destruct t; simpl; auto. Qed.

Lemma strip_spec (s : str) : trimmed_both s (strip s).
Proof.
  unfold trimmed_both, strip.
  destruct (lstrip_spec s) as [pre [Heq [Hpre Hno]]].
  destruct (rstrip_spec (lstrip s)) as [post [Heq' [Hpost Hno']]].
  exists pre, post. repeat split; try assumption.
  - now rewrite <- Heq'.
  - apply no_leading_space_prefix with post. now rewrite <- Heq'.
Qed.

(** ** Language Classifier *)

Import RustElixir.

Lemma elixir_marked_dec (content : str) :
  contains (lit "defmodule") content
  || contains (lit "def ") content
  || contains (lit "|>") content = true <-> elixir_marked content.
Proof.
  unfold elixir_marked. rewrite !orb_true_iff, !contains_spec. tauto.
Qed.

Lemma rust_marked_dec (content : str) :
  contains (lit "fn ") content
  || contains (lit "struct ") content
  || contains (lit "impl ") content = true <-> rust_marked content.
Proof.
  unfold rust_marked. rewrite !orb_true_iff, !contains_spec. tauto.
Qed.

(** C3. The classifier is a total function of the text that searches
    case-sensitive substrings, first match wins: a text containing
    [defmodule], [def ] (the three letters and the space) or [|>] is tagged
    elixir; otherwise a text containing [fn ], [struct ] or [impl ] is tagged
    rust; otherwise the tag is unknown.  Exactly one of the three cases
    applies to every text. *)
Theorem detect_language_first_match_wins (content : str) :
  (elixir_marked content
   /\ detect_language_from_content content = lit "elixir")
  \/ (~ elixir_marked content /\ rust_marked content
      /\ detect_language_from_content content = lit "rust")
  \/ (~ elixir_marked content /\ ~ rust_marked content
      /\ detect_language_from_content content = lit "unknown").
Proof.
  unfold detect_language_from_content.
  destruct (contains (lit "defmodule") content
            || contains (lit "def ") content
            || contains (lit "|>") content) eqn:He.
  - left. split; [now apply elixir_marked_dec | reflexivity].
  - assert (Hne : ~ elixir_marked content).
    { intros H. apply elixir_marked_dec in H. congruence. }
    destruct (contains (lit "fn ") content
              || contains (lit "struct ") content
              || contains (lit "impl ") content) eqn:Hr.
    + right; left. repeat split; [exact Hne | now apply rust_marked_dec].
    + right; right. repeat split; [exact Hne |].
      intros H. apply rust_marked_dec in H. congruence.
Qed.

(** The three examples of the specification. *)
Example detect_defmodule :
  detect_language_from_content (lit "defmodule Foo do" ++ nl ++ lit "end")
  = lit "elixir".
Proof. reflexivity. Qed.

Example detect_fn_struct :
  detect_language_from_content (lit "fn main() { struct S; }") = lit "rust".
Proof. reflexivity. Qed.

Example detect_print :
  detect_language_from_content (lit "print('hi')") = lit "unknown".
Proof. reflexivity. Qed.

(** The search is for substrings: [def ] is found inside [undef ]. *)
Example detect_def_inside_word :
  detect_language_from_content (lit "undef x") = lit "elixir".
Proof. reflexivity. Qed.

(** A text with markers of both families gets the family checked first. *)
Example detect_both_families :
  detect_language_from_content (lit "fn f() { x |> g }") = lit "elixir".
Proof. reflexivity. Qed.

(** ** Formatted string literals of the scripts *)

Lemma rust_literal_fields :
  exists guidance,
    fscan InText rust_literal = Ok [FField (lit "instruction") []; FText guidance]
    /\ 0 < length guidance.
Proof.
  eexists. split; [vm_compute; reflexivity | simpl; lia].
Qed.

(** The second field of the Elixir literal, [{:ok, result}], has no
    expression: the literal is refused. *)
Lemma elixir_literal_refused : fscan InText elixir_literal = Raise SyntaxError.
Proof. vm_compute. reflexivity. Qed.

(** With doubled braces the same text would be literal. *)
Example doubled_braces_are_text :
  fscan InText (lit "with {{:ok, result}} and {{:error, reason}}")
  = Ok [FText (lit "with {:ok, result} and {:error, reason}")].
Proof. reflexivity. Qed.

Lemma codet5_prompt (instruction src : str) :
  fstring [(lit "instruction", instruction); (lit "src", src)] CodeT5.prompt_literal
  = Ok (instruction ++ nl ++ nl ++ src ++ nl ++ nl ++ lit "### Desired Output").
Proof.
  unfold fstring.
  replace (fscan InText CodeT5.prompt_literal)
    with (Ok [FField (lit "instruction") []; FText (nl ++ nl);
              FField (lit "src") []; FText (nl ++ nl ++ lit "### Desired Output")])
    by (vm_compute; reflexivity).
  reflexivity.
Qed.

Lemma rust_elixir_prompt (enhanced_instruction src : str) :
  fstring [(lit "enhanced_instruction", enhanced_instruction); (lit "src", src)]
    prompt_literal
  = Ok (enhanced_instruction ++ nl ++ nl ++ lit "Context: " ++ src ++ nl ++ nl
        ++ lit "### Code Output").
Proof.
  unfold fstring.
  replace (fscan InText prompt_literal)
    with (Ok [FField (lit "enhanced_instruction") [];
              FText (nl ++ nl ++ lit "Context: ");
              FField (lit "src") []; FText (nl ++ nl ++ lit "### Code Output")])
    by (vm_compute; reflexivity).
  cbn [bind feval lookup]. 
  reflexivity.
Qed.

(** ** Instruction Augmenter *)

Lemma enhance_instruction_cases (instruction language : str) :
  enhance_instruction_for_language instruction language
  = if eqb language (lit "rust") then Ok (instruction ++ rust_guidance)
    else if eqb language (lit "elixir") then Raise SyntaxError
    else Ok instruction.
Proof.
  unfold enhance_instruction_for_language, fstring.
  destruct (eqb language (lit "rust")).
  - replace (fscan InText rust_literal)
      with (Ok [FField (lit "instruction") []; FText rust_guidance])
      by (vm_compute; reflexivity).
    cbn [bind feval lookup]. replace (eqb (lit "instruction") (lit "instruction"))
      with true by reflexivity.
    cbn [bind is_empty]. now rewrite app_nil_r.
  - destruct (eqb language (lit "elixir")); [| reflexivity].
    now rewrite elixir_literal_refused.
Qed.

(** For [unknown], and for every tag that is neither [rust] nor [elixir],
    the instruction is returned unchanged. *)
Lemma enhance_instruction_unknown (instruction : str) :
  enhance_instruction_for_language instruction (lit "unknown") = Ok instruction.
Proof. now rewrite enhance_instruction_cases. Qed.

(** For [rust] a fixed, non-empty guidance is appended: the result has the
    instruction as a prefix and is strictly longer. *)
Lemma enhance_instruction_rust (instruction : str) :
  enhance_instruction_for_language instruction (lit "rust")
  = Ok (instruction ++ rust_guidance)
  /\ length instruction < length (instruction ++ rust_guidance).
Proof.
  rewrite enhance_instruction_cases. split; [reflexivity |].
  rewrite length_app. 
  assert (0 < length rust_guidance) by (vm_compute; lia). lia.
Qed.

(** C8. For the tag [elixir] the augmenter does not return the instruction
    with guidance appended: its literal holds the replacement fields
    [{:ok, result}] and [{:error, reason}], which have no expression, so the
    literal is refused, whatever the instruction. *)
Theorem enhance_instruction_elixir_refused (instruction : str) :
  enhance_instruction_for_language instruction (lit "elixir") = Raise SyntaxError.
Proof.
  unfold enhance_instruction_for_language.
  replace (eqb (lit "elixir") (lit "rust")) with false by reflexivity.
  replace (eqb (lit "elixir") (lit "elixir")) with true by reflexivity.
  unfold fstring. rewrite elixir_literal_refused. reflexivity.
Qed.

(** ** Example Normalizer *)

Section Normalizer.

Variables tokenizer target_tokenizer : str -> nat -> list Z.

Lemma codet5_format_eq (args : CodeT5.Args) (row : Row) :
  CodeT5._format tokenizer target_tokenizer args row
  = Ok {| CodeT5.enc_input_ids :=
            tokenizer (strip (get (row_instruction row) []) ++ nl ++ nl
                       ++ rstrip (get (row_input row) []) ++ nl ++ nl
                       ++ lit "### Desired Output") (CodeT5.max_seq_len args);
          CodeT5.enc_labels :=
            target_tokenizer (rstrip (get (row_output row) []))
              (CodeT5.max_seq_len args) |}.
Proof.
  unfold CodeT5._format. now rewrite codet5_prompt.
Qed.

Lemma rust_elixir_format_eq (args : RustElixirArgs) (row : Row) :
  _format_rust_elixir tokenizer target_tokenizer args row
  = (enhanced_instruction <-
       enhance_instruction_for_language (strip (get (row_instruction row) []))
         (detect_language_from_content (rstrip (get (row_output row) []))) ;;
     Ok {| enc_input_ids :=
             tokenizer (enhanced_instruction ++ nl ++ nl ++ lit "Context: "
                        ++ rstrip (get (row_input row) []) ++ nl ++ nl
                        ++ lit "### Code Output") (max_seq_len args);
           enc_labels :=
             target_tokenizer (rstrip (get (row_output row) [])) (max_seq_len args);
           enc_language :=
             detect_language_from_content (rstrip (get (row_output row) []));
           enc_quality_score := get (row_quality_score row) 0%R |}).
Proof.
  unfold _format_rust_elixir.
  destruct (enhance_instruction_for_language _ _) as [e|]; [| reflexivity].
  cbn [bind]. now rewrite rust_elixir_prompt.
Qed.

(** The base normalizer never raises, and an absent field is encoded as the
    empty string. *)
Lemma codet5_format_total (args : CodeT5.Args) (row : Row) :
  exists entry, CodeT5._format tokenizer target_tokenizer args row = Ok entry.
Proof. rewrite codet5_format_eq. eauto. Qed.

Lemma codet5_format_absent_fields (args : CodeT5.Args) (row : Row) :
  CodeT5._format tokenizer target_tokenizer args row
  = CodeT5._format tokenizer target_tokenizer args
      {| row_instruction := Some (get (row_instruction row) []);
         row_input := Some (get (row_input row) []);
         row_output := Some (get (row_output row) []);
         row_quality_score := row_quality_score row |}.
Proof. now rewrite !codet5_format_eq. Qed.

(** So does the language-aware normalizer on an output it does not tag
    [elixir]; on the others it stops in the augmenter. *)
Lemma rust_elixir_format_outcome (args : RustElixirArgs) (row : Row) :
  let language := detect_language_from_content (rstrip (get (row_output row) [])) in
  if eqb language (lit "elixir")
  then _format_rust_elixir tokenizer target_tokenizer args row = Raise SyntaxError
  else exists entry,
      _format_rust_elixir tokenizer target_tokenizer args row = Ok entry
      /\ enc_language entry = language.
Proof.
  intros language. rewrite rust_elixir_format_eq. fold language.
  rewrite enhance_instruction_cases.
  destruct (eqb language (lit "rust")) eqn:Hr.
  - apply eqb_eq in Hr. rewrite Hr. cbn [bind]. 
    replace (eqb (lit "rust") (lit "elixir")) with false by reflexivity.
    eexists. split; reflexivity.
  - destruct (eqb language (lit "elixir")); [reflexivity |].
    eexists. split; reflexivity.
Qed.

Lemma rust_elixir_format_absent_fields (args : RustElixirArgs) (row : Row) :
  _format_rust_elixir tokenizer target_tokenizer args row
  = _format_rust_elixir tokenizer target_tokenizer args
      {| row_instruction := Some (get (row_instruction row) []);
         row_input := Some (get (row_input row) []);
         row_output := Some (get (row_output row) []);
         row_quality_score := row_quality_score row |}.
Proof. now rewrite !rust_elixir_format_eq. Qed.

(** C6, as the code has it.  Both normalizers build the prompt and the labels
    from the instruction trimmed on both sides and from the input and the
    output trimmed on the right only: their leading whitespace stays.  (In
    the language-aware normalizer the instruction first goes through the
    augmenter.) *)
Theorem normalizers_trim (row : Row) :
  exists instruction src tgt,
    trimmed_both (get (row_instruction row) []) instruction
    /\ trimmed_right (get (row_input row) []) src
    /\ trimmed_right (get (row_output row) []) tgt
    /\ (forall args,
          CodeT5._format tokenizer target_tokenizer args row
          = Ok {| CodeT5.enc_input_ids :=
                    tokenizer (instruction ++ nl ++ nl ++ src ++ nl ++ nl
                               ++ lit "### Desired Output") (CodeT5.max_seq_len args);
                  CodeT5.enc_labels :=
                    target_tokenizer tgt (CodeT5.max_seq_len args) |})
    /\ (forall args,
          _format_rust_elixir tokenizer target_tokenizer args row
          = (enhanced_instruction <-
               enhance_instruction_for_language instruction
                 (detect_language_from_content tgt) ;;
             Ok {| enc_input_ids :=
                     tokenizer (enhanced_instruction ++ nl ++ nl ++ lit "Context: "
                                ++ src ++ nl ++ nl ++ lit "### Code Output")
                       (max_seq_len args);
                   enc_labels := target_tokenizer tgt (max_seq_len args);
                   enc_language := detect_language_from_content tgt;
                   enc_quality_score := get (row_quality_score row) 0%R |})).
Proof.
  exists (strip (get (row_instruction row) [])),
         (rstrip (get (row_input row) [])),
         (rstrip (get (row_output row) [])).
  split; [apply strip_spec |].
  split; [apply rstrip_spec |].
  split; [apply rstrip_spec |].
  split; intros args.
  - apply codet5_format_eq.
  - apply rust_elixir_format_eq.
Qed.

(** C7. The language-aware normalizer does raise on a record with absent
    fields: here the instruction and the input are absent and the output
    holds the pipe operator, so the record is tagged [elixir] and the
    augmenter's literal is refused. *)
Theorem format_rust_elixir_raises (args : RustElixirArgs) :
  _format_rust_elixir tokenizer target_tokenizer args
    {| row_instruction := None;
       row_input := None;
       row_output := Some (lit "list |> Enum.sum()");
       row_quality_score := None |}
  = Raise SyntaxError.
Proof.
  exact (rust_elixir_format_outcome args
           {| row_instruction := None;
              row_input := None;
              row_output := Some (lit "list |> Enum.sum()");
              row_quality_score := None |}).
Qed.

(** C9. Two raw examples with the same output get the same language tag
    from the normalizer, whatever their instructions and inputs (and when
    the normalizer raises on one it raises on the other). *)
Theorem language_depends_on_output_only (args : RustElixirArgs) (row1 row2 : Row) :
  row_output row1 = row_output row2 ->
  result_map enc_language (_format_rust_elixir tokenizer target_tokenizer args row1)
  = result_map enc_language (_format_rust_elixir tokenizer target_tokenizer args row2).
Proof.
  intros Hout.
  pose proof (rust_elixir_format_outcome args row1) as H1.
  pose proof (rust_elixir_format_outcome args row2) as H2.
  cbv zeta in H1, H2. rewrite <- Hout in H2.
  destruct (eqb (detect_language_from_content (rstrip (get (row_output row1) [])))
              (lit "elixir")).
  - now rewrite H1, H2.
  - destruct H1 as [e1 [-> E1]], H2 as [e2 [-> E2]].
    unfold result_map. cbn [bind]. now rewrite E1, E2.
Qed.

End Normalizer.

Lemma language_depends_on_output_only_witness :
  result_map enc_language
    (_format_rust_elixir code_points code_points
       {| max_seq_len := 64; gradient_accumulation := 8; epochs := 1;
          log_every := 10; cross_language_learning := true;
          rust_weight := 1; elixir_weight := 1 |}
       {| row_instruction := Some (lit "Write a parser");
          row_input := Some (lit "tokens");
          row_output := Some (lit "fn parse() {}");
          row_quality_score := None |})
  = result_map enc_language
      (_format_rust_elixir code_points code_points
         {| max_seq_len := 64; gradient_accumulation := 8; epochs := 1;
            log_every := 10; cross_language_learning := true;
            rust_weight := 1; elixir_weight := 1 |}
         {| row_instruction := None;
            row_input := Some (lit "def other");
            row_output := Some (lit "fn parse() {}");
            row_quality_score := Some 3%R |}).
Proof.
  apply (language_depends_on_output_only code_points code_points). reflexivity.
Defined.

(** The counterexample to C6 as it is worded: the leading blanks of the
    input and of the output are encoded. *)
Lemma format_keeps_leading_whitespace :
  exists entry,
    CodeT5._format code_points code_points
      {| CodeT5.max_seq_len := 64; CodeT5.gradient_accumulation := 16;
         CodeT5.epochs := 1; CodeT5.log_every := 10 |}
      {| row_instruction := Some (lit " fix ");
         row_input := Some (lit "  x");
         row_output := Some (lit "  y ");
         row_quality_score := None |}
    = Ok entry
    /\ CodeT5.enc_labels entry = code_points (lit "  y") 64
    /\ CodeT5.enc_input_ids entry
       = code_points (lit "fix" ++ nl ++ nl ++ lit "  x" ++ nl ++ nl
                      ++ lit "### Desired Output") 64
    /\ entry
       <> CodeT5.format_trimming_both_sides code_points code_points
            {| CodeT5.max_seq_len := 64; CodeT5.gradient_accumulation := 16;
               CodeT5.epochs := 1; CodeT5.log_every := 10 |}
            {| row_instruction := Some (lit " fix ");
               row_input := Some (lit "  x");
               row_output := Some (lit "  y ");
               row_quality_score := None |}.
Proof.
  eexists. split; [rewrite codet5_format_eq; reflexivity |].
  split; [reflexivity |]. split; [reflexivity |].
  intros H. apply (f_equal CodeT5.enc_labels) in H. vm_compute in H. discriminate H.
Qed.

(** ** Weighted Loss Evaluator *)



Lemma slice1_app {A : Type} (k : nat) (pre : list A) (x : A) (rest : list A) :
  length pre = k -> slice1 k (pre ++ x :: rest) = [x].
Proof.
  intros <-. unfold slice1.
  induction pre as [|y pre IH]; simpl; [reflexivity | exact IH].
Qed.

(** The loop over [enumerate(languages)] visits the examples in order. *)
Lemma weighted_sum_in_order (rw ew : R) (langs : list str) :
  forall (k : nat) (lg_pre lg : list (list (list R))) (lb_pre lb : list (list Z))
         (acc : scalar),
    length lg_pre = k ->
    length lb_pre = k ->
    length lg = length lb ->
    length langs = length lb ->
    fold_left
      (fun total il =>
         sadd total
           (calculate_weighted_loss (slice1 (fst il) (lg_pre ++ lg))
              (slice1 (fst il) (lb_pre ++ lb)) (snd il) rw ew))
      (enumerate_from k langs) acc
    = fold_left
        (fun total x =>
           sadd total
             (calculate_weighted_loss [fst (fst x)] [snd (fst x)] (snd x) rw ew))
        (combine (combine lg lb) langs) acc.
Proof.
  induction langs as [|lang langs IH];
    intros k lg_pre lg lb_pre lb acc Hlg Hlb Hlen Hlangs.
  - simpl. now destruct (combine lg lb).
  - destruct lb as [|b lb]; [discriminate |].
    destruct lg as [|g lg]; [discriminate |].
    simpl in Hlen, Hlangs. cbn [enumerate_from combine fold_left fst snd].
    rewrite (slice1_app k lg_pre g lg Hlg), (slice1_app k lb_pre b lb Hlb).
    replace (lg_pre ++ g :: lg) with ((lg_pre ++ [g]) ++ lg)
      by (now rewrite <- app_assoc).
    replace (lb_pre ++ b :: lb) with ((lb_pre ++ [b]) ++ lb)
      by (now rewrite <- app_assoc).
    apply IH.
    + rewrite length_app. simpl. lia.
    + rewrite length_app. simpl. lia.
    + lia.
    + lia.
Qed.

Lemma same_shape_length (lg : list (list (list R))) (lb : list (list Z)) :
  same_shape lg lb = true -> length lg = length lb.
Proof.
  revert lb. induction lg as [|g lg IH]; intros [|b lb]; simpl; try discriminate.
  - reflexivity.
  - rewrite andb_true_iff. intros [_ H]. f_equal. now apply IH.
Qed.

(** The kept positions of one example. *)
Lemma kept_positions_length (g : list (list R)) :
  forall b : list Z,
    length g = length b ->
    length (filter kept (combine g b)) = count_kept b.
Proof.
  unfold count_kept.
  induction g as [|r g IH]; intros [|t b] Hlen; try discriminate; [reflexivity |].
  simpl in Hlen. cbn [combine filter]. unfold kept at 1. cbn [snd].
  destruct (negb (t =? ignore_index)%Z); simpl; rewrite IH by lia; reflexivity.
Qed.





Lemma cross_entropy_loss_counted (n : nat) (g : list (list R)) (b : list Z) :
  length g = length b ->
  count_kept b = n ->
  cross_entropy_loss g b
  = if n =? 0 then NaN
    else Real (rsum (map token_nll (filter kept (combine g b))) / INR n).
Proof.
  intros Hlen Hn. unfold cross_entropy_loss.
  rewrite <- (kept_positions_length g b Hlen) in Hn.
  destruct (filter kept (combine g b)) as [|p ps]; simpl in Hn; subst n;
    reflexivity.
Qed.




(** [ln y] is at least [1 - 1/y]. *)
Lemma ln_lower_bound (y : R) : (0 < y -> 1 - / y <= ln y)%R.
Proof.
  intros Hy.
  assert (Hinv : (0 < / y)%R) by now apply Rinv_0_lt_compat.
  pose proof (exp_ineq1_le (/ y - 1)) as He.
  replace (1 + (/ y - 1))%R with (/ y)%R in He by ring.
  assert (Hln : (ln (/ y) <= / y - 1)%R).
  { destruct He as [He|He].
    - left. rewrite <- (ln_exp (/ y - 1)). now apply ln_increasing.
    - right. rewrite He at 1. apply ln_exp. }
  rewrite ln_Rinv in Hln by exact Hy. lra.
Qed.

(** The token losses of the example model: [ln 2] under the logits [0, 0]
    and [ln (e + 1)] for the second token under [1, 0]; they differ by more
    than a third. *)
Lemma example_token_losses :
  let A := ln (exp 0 + (exp 0 + 0)) in
  let L := ln (exp 1 + (exp 0 + 0)) in
  (0 < A /\ A < 1 /\ L <= 2 /\ A + 1 / 3 <= L)%R.
Proof.
  intros A L. subst A L. rewrite exp_0.
  pose proof exp_le_3 as He3.
  assert (He2 : (2 < exp 1)%R).
  { pose proof (exp_ineq1 1 ltac:(lra)). lra. }
  replace (1 + (1 + 0))%R with 2%R by ring.
  replace (exp 1 + (1 + 0))%R with (exp 1 + 1)%R by ring.
  assert (HA0 : (0 < ln 2)%R).
  { rewrite <- ln_1. apply ln_increasing; lra. }
  assert (HA1 : (ln 2 < 1)%R).
  { apply Rlt_le_trans with (ln (exp 1)).
    - apply ln_increasing; lra.
    - rewrite ln_exp. lra. }
  assert (H4 : (ln 4 = ln 2 + ln 2)%R).
  { replace 4%R with (2 * 2)%R by ring. apply ln_mult; lra. }
  assert (HL : (ln (exp 1 + 1) <= ln 4)%R).
  { destruct (Req_dec (exp 1 + 1) 4) as [->|Hne]; [lra |].
    left. apply ln_increasing; lra. }
  assert (Hdiff : (ln (exp 1 + 1) = ln 2 + ln ((exp 1 + 1) / 2))%R).
  { rewrite <- ln_mult by lra. f_equal. field. }
  pose proof (ln_lower_bound ((exp 1 + 1) / 2) ltac:(lra)) as Hlow.
  assert (Hinv : (/ ((exp 1 + 1) / 2) < 2 / 3)%R).
  { replace (2 / 3)%R with (/ (3 / 2))%R by field.
    apply Rinv_lt_contravar; [| lra].
    apply Rmult_lt_0_compat; lra. }
  repeat split; lra.
Qed.


(** The loss of a batch is determined by the logits the model returns for
    it, its labels and its languages. *)
Lemma batch_loss_reads
    (forward : Batch -> list (list (list R)))
    (args : RustElixirArgs) (batch1 batch2 : Batch) :
  forward batch1 = forward batch2 ->
  labels batch1 = labels batch2 ->
  language batch1 = language batch2 ->
  batch_loss forward args batch1 = batch_loss forward args batch2.
Proof.
  intros Hlogits Hlabels Hlang.
  unfold batch_loss, model. cbn [logits loss].
  now rewrite Hlogits, Hlabels, Hlang.
Qed.




(** So the trace of an epoch, and with it every update the loss drives, is
    the same for batches with the same labels and tags on which the model
    returns the same logits. *)
Lemma train_epoch_ignores_quality_score
    (forward : Batch -> list (list (list R)))
    (args : RustElixirArgs) (epoch : nat) (todo1 : list Batch) :
  forall (todo2 : list Batch) (step : nat) (g : Accelerate.GradientState),
    Forall2 (fun b1 b2 => forward b1 = forward b2
                          /\ labels b1 = labels b2
                          /\ language b1 = language b2) todo1 todo2 ->
    train_epoch forward args epoch step todo1 g
    = train_epoch forward args epoch step todo2 g.
Proof.
  induction todo1 as [|b1 todo1 IH]; intros todo2 step g Hall;
    inversion Hall as [|? b2 ? todo2' [Hlogits [Hlabels Hlang]] Hrest]; subst.
  - reflexivity.
  - cbn [train_epoch].
    rewrite (batch_loss_reads forward args b1 b2 Hlogits Hlabels Hlang).
    replace (is_nil todo2') with (is_nil todo1)
      by (now destruct Hrest).
    destruct (Accelerate.accumulate _ _ g) as [g1|]; [| reflexivity].
    cbn [bind]. destruct (batch_loss forward args b2); [| reflexivity].
    cbn [bind]. 
    destruct (if Accelerate.sync_gradients g1 then _ else _); [| reflexivity].
    cbn [bind]. now rewrite (IH todo2' (S step) g1 Hrest).
Qed.

(** ** Training Loop Driver *)

Lemma bind_ok_inv {A B : Type} (c : result A) (k : A -> result B) (b : B) :
  (x <- c ;; k x) = Ok b -> exists a, c = Ok a /\ k a = Ok b.
Proof. destruct c as [a|e]; simpl; [eauto | discriminate]. Qed.

Ltac bind_inv H :=
  repeat (let a := fresh "a" in
          let Ha := fresh "Ha" in
          apply bind_ok_inv in H; destruct H as [a [Ha H]]).

Lemma div_succ (a K : nat) :
  0 < K -> S a / K = a / K + (if S a mod K =? 0 then 1 else 0).
Proof.
  intros HK.
  pose proof (Nat.div_mod_eq a K) as Ha.
  pose proof (Nat.div_mod_eq (S a) K) as Hs.
  pose proof (Nat.mod_upper_bound a K ltac:(lia)) as Hra.
  pose proof (Nat.mod_upper_bound (S a) K ltac:(lia)) as Hrs.
  destruct (Nat.eqb_spec (S a mod K) 0) as [E|E]; nia.
Qed.

Lemma ceil_div_succ (m K : nat) : 0 < K -> (S m + K - 1) / K = m / K + 1.
Proof.
  intros HK. replace (S m + K - 1) with (m + 1 * K) by lia.
  apply Nat.div_add. lia.
Qed.

Lemma ceil_div_zero (K : nat) : 0 < K -> (0 + K - 1) / K = 0.
Proof. intros HK. apply Nat.div_small. lia. Qed.

Lemma optimizer_updates_app (t1 t2 : list event) :
  optimizer_updates (t1 ++ t2) = optimizer_updates t1 + optimizer_updates t2.
Proof. unfold optimizer_updates. now rewrite filter_app, length_app. Qed.

Lemma optimizer_updates_step (epoch step : nat) (update : bool)
    (logged : option (nat * scalar)) (trace : list event) :
  optimizer_updates (Step epoch step update logged :: trace)
  = (if update then 1 else 0) + optimizer_updates trace.
Proof. unfold optimizer_updates. simpl. now destruct update. Qed.

(** The accelerator on entering a micro-batch, for a positive window. *)
Lemma accumulate_ok (K : nat) (last : bool) (g g1 : Accelerate.GradientState) :
  Accelerate.accumulate K last g = Ok g1 ->
  0 < K ->
  g1 = if last then {| Accelerate.step := 0; Accelerate.sync_gradients := true |}
       else {| Accelerate.step := S (Accelerate.step g);
               Accelerate.sync_gradients := (S (Accelerate.step g) mod K =? 0) |}.
Proof.
  unfold Accelerate.accumulate. intros H HK. destruct last.
  - now injection H as <-.
  - rewrite py_mod_pos in H by exact HK. now injection H as <-.
Qed.

(** The updates of one epoch of the language-aware driver, whose window
    counter and step index agree: one for every index that completes a
    window, and one for the last batch. *)
Lemma rust_elixir_epoch_updates
    (forward : Batch -> list (list (list R)))
    (args : RustElixirArgs) (epoch : nat) (todo : list Batch) :
  forall (step : nat) (g : Accelerate.GradientState)
         (run : Accelerate.GradientState * list event),
    0 < gradient_accumulation args ->
    Accelerate.step g = step ->
    train_epoch forward args epoch step todo g = Ok run ->
    optimizer_updates (snd run)
    = match todo with
      | [] => 0
      | _ :: rest =>
          (step + length rest) / gradient_accumulation args
          - step / gradient_accumulation args + 1
      end
    /\ Accelerate.step (fst run) = match todo with [] => step | _ :: _ => 0 end.
Proof.
  induction todo as [|batch rest IH]; intros step g run HK Hg H.
  - injection H as <-. now split.
  - cbn [train_epoch] in H. bind_inv H. injection H as <-. cbn [fst snd].
    rewrite optimizer_updates_step.
    apply accumulate_ok in Ha; [| exact HK].
    destruct rest as [|batch' rest'].
    + cbn [is_nil] in Ha. subst a. injection Ha2 as <-.
      cbn [Accelerate.sync_gradients Accelerate.step fst snd length].
      replace (step + 0) with step by lia.
      split; [unfold optimizer_updates; simpl; lia | reflexivity].
    + cbn [is_nil] in Ha. rewrite Hg in Ha. subst a.
      apply IH in Ha2; [destruct Ha2 as [Hn Hs] | exact HK | reflexivity].
      cbn [Accelerate.sync_gradients]. rewrite Hn, Hs. split; [| reflexivity].
      cbn [length].
      replace (step + S (length rest')) with (S step + length rest') by lia.
      pose proof (div_succ step (gradient_accumulation args) HK) as Hd.
      pose proof (Nat.Div0.div_le_mono (S step) (S step + length rest')
                    (gradient_accumulation args) ltac:(lia)) as Hm.
      destruct (S step mod gradient_accumulation args =? 0); lia.
Qed.

(** A loss is logged by the language-aware driver only on a micro-batch
    that updates, and whose step index is a multiple of the interval. *)
Lemma rust_elixir_epoch_logs
    (forward : Batch -> list (list (list R)))
    (args : RustElixirArgs) (epoch : nat) (todo : list Batch) :
  forall (step : nat) (g : Accelerate.GradientState)
         (run : Accelerate.GradientState * list event),
    train_epoch forward args epoch step todo g = Ok run ->
    forall (e s : nat) (u : bool) (l : nat * scalar),
      In (Step e s u (Some l)) (snd run) ->
      u = true /\ s mod log_every args = 0 /\ fst l = s.
Proof.
  induction todo as [|batch rest IH]; intros step g run H e s u l Hin.
  - injection H as <-. destruct Hin.
  - cbn [train_epoch] in H. bind_inv H. injection H as <-.
    destruct Hin as [Heq|Hin]; [| exact (IH _ _ _ Ha2 e s u l Hin)].
    injection Heq as _ <- <- ->.
    destruct (Accelerate.sync_gradients a); [| discriminate].
    bind_inv Ha1. unfold py_mod in Ha3.
    destruct (log_every args =? 0); [discriminate |]. injection Ha3 as <-.
    destruct (Nat.eqb_spec (step mod log_every args) 0) as [E|E].
    + injection Ha1 as <-. now repeat split.
    + discriminate.
Qed.

Lemma rust_elixir_run_updates
    (forward : Batch -> list (list (list R)))
    (args : RustElixirArgs) (train_dl : DataLoader) (eval_dl : option DataLoader)
    (N : nat) (todo : nat) :
  forall (epoch : nat) (g : Accelerate.GradientState) (trace : list event),
    0 < gradient_accumulation args ->
    (forall e, length (batches train_dl e) = N) ->
    Accelerate.step g = 0 ->
    train_epochs forward args train_dl eval_dl epoch todo g = Ok trace ->
    optimizer_updates trace
    = todo * ((N + gradient_accumulation args - 1) / gradient_accumulation args).
Proof.
  induction todo as [|todo IH]; intros epoch g trace HK HN Hg H.
  - injection H as <-. reflexivity.
  - cbn [train_epochs] in H. bind_inv H. injection H as <-.
    destruct (rust_elixir_epoch_updates forward args epoch (batches train_dl epoch)
                0 g a HK Hg Ha) as [Hn Hs].
    assert (Hs0 : Accelerate.step (fst a) = 0).
    { rewrite Hs. now destruct (batches train_dl epoch). }
    rewrite !optimizer_updates_app, (IH _ _ _ HK HN Hs0 Ha1), Hn.
    assert (He : optimizer_updates a0 = 0).
    { destruct eval_dl as [dl|].
      - bind_inv Ha0. now injection Ha0 as <-.
      - now injection Ha0 as <-. }
    rewrite He. specialize (HN epoch).
    destruct (batches train_dl epoch) as [|batch rest].
    + simpl in HN. subst N. rewrite ceil_div_zero by exact HK. lia.
    + simpl in HN. subst N. rewrite ceil_div_succ by exact HK.
      rewrite Nat.Div0.div_0_l. cbn [Nat.add]. lia.
Qed.

Lemma rust_elixir_run_logs
    (forward : Batch -> list (list (list R)))
    (args : RustElixirArgs) (train_dl : DataLoader) (eval_dl : option DataLoader)
    (todo : nat) :
  forall (epoch : nat) (g : Accelerate.GradientState) (trace : list event),
    train_epochs forward args train_dl eval_dl epoch todo g = Ok trace ->
    forall (e s : nat) (u : bool) (l : nat * scalar),
      In (Step e s u (Some l)) trace ->
      u = true /\ s mod log_every args = 0 /\ fst l = s.
Proof.
  induction todo as [|todo IH]; intros epoch g trace H e s u l Hin.
  - injection H as <-. destruct Hin.
  - cbn [train_epochs] in H. bind_inv H. injection H as <-.
    apply in_app_or in Hin as [Hin|Hin].
    + exact (rust_elixir_epoch_logs forward args epoch _ _ _ _ Ha e s u l Hin).
    + apply in_app_or in Hin as [Hin|Hin].
      * destruct eval_dl as [dl|].
        -- bind_inv Ha0. injection Ha0 as <-.
           destruct Hin as [Hin|[]]. discriminate Hin.
        -- injection Ha0 as <-. destruct Hin.
      * exact (IH _ _ _ Ha1 e s u l Hin).
Qed.

(** The same count for the base driver. *)
Lemma codet5_epoch_updates
    (forward : Batch -> list (list (list R)))
    (args : CodeT5.Args) (main : bool) (epoch : nat) (todo : list Batch) :
  forall (step : nat) (st : CodeT5.LoopState) (run : CodeT5.LoopState * list event),
    0 < CodeT5.gradient_accumulation args ->
    Accelerate.step (CodeT5.gradient_state st) = step ->
    CodeT5.train_epoch forward args main epoch step todo st = Ok run ->
    optimizer_updates (snd run)
    = match todo with
      | [] => 0
      | _ :: rest =>
          (step + length rest) / CodeT5.gradient_accumulation args
          - step / CodeT5.gradient_accumulation args + 1
      end
    /\ Accelerate.step (CodeT5.gradient_state (fst run))
       = match todo with [] => step | _ :: _ => 0 end.
Proof.
  induction todo as [|batch rest IH]; intros step st run HK Hg H.
  - injection H as <-. now split.
  - cbn [CodeT5.train_epoch] in H. bind_inv H. injection H as <-. cbn [fst snd].
    rewrite optimizer_updates_step.
    apply accumulate_ok in Ha; [| exact HK].
    destruct rest as [|batch' rest'].
    + cbn [is_nil] in Ha. subst a. injection Ha1 as <-.
      cbn [Accelerate.sync_gradients Accelerate.step CodeT5.gradient_state
             fst snd length].
      replace (step + 0) with step by lia.
      split; [unfold optimizer_updates; simpl; lia | reflexivity].
    + cbn [is_nil] in Ha. rewrite Hg in Ha. subst a.
      apply IH in Ha1; [destruct Ha1 as [Hn Hs] | exact HK | reflexivity].
      cbn [Accelerate.sync_gradients]. rewrite Hn, Hs. split; [| reflexivity].
      cbn [length].
      replace (step + S (length rest')) with (S step + length rest') by lia.
      pose proof (div_succ step (CodeT5.gradient_accumulation args) HK) as Hd.
      pose proof (Nat.Div0.div_le_mono (S step) (S step + length rest')
                    (CodeT5.gradient_accumulation args) ltac:(lia)) as Hm.
      destruct (S step mod CodeT5.gradient_accumulation args =? 0); lia.
Qed.

(** The base driver logs on the main process, when the count of
    micro-batches seen so far is a multiple of the interval. *)
Lemma codet5_epoch_logs
    (forward : Batch -> list (list (list R)))
    (args : CodeT5.Args) (main : bool) (epoch : nat) (todo : list Batch) :
  forall (step : nat) (st : CodeT5.LoopState) (run : CodeT5.LoopState * list event),
    CodeT5.train_epoch forward args main epoch step todo st = Ok run ->
    CodeT5.global_step (fst run) = CodeT5.global_step st + length todo
    /\ forall (e s : nat) (u : bool) (l : nat * scalar),
        In (Step e s u (Some l)) (snd run) ->
        main = true /\ e = epoch /\ step <= s
        /\ fst l = CodeT5.global_step st + (s - step) + 1
        /\ fst l mod CodeT5.log_every args = 0.
Proof.
  induction todo as [|batch rest IH]; intros step st run H.
  - injection H as <-. split; [simpl; lia | intros e s u l []].
  - cbn [CodeT5.train_epoch] in H. bind_inv H. injection H as <-.
    destruct (IH _ _ _ Ha1) as [Hgs Hlogs]. cbn [CodeT5.global_step] in Hgs, Hlogs.
    cbn [fst snd]. split; [rewrite Hgs; simpl; lia |].
    intros e s u l [Heq|Hin].
    + injection Heq as <- <- _ ->.
      destruct main; [| discriminate].
      bind_inv Ha0. unfold py_mod in Ha2.
      destruct (CodeT5.log_every args =? 0); [discriminate |].
      injection Ha2 as <-.
      destruct (Nat.eqb_spec (S (CodeT5.global_step st) mod CodeT5.log_every args) 0)
        as [E|E]; [| discriminate].
      injection Ha0 as <-. cbn [fst].
      repeat split; lia.
    + destruct (Hlogs e s u l Hin) as [Hm [He [Hs [Hl Hmod]]]].
      repeat split; try assumption; lia.
Qed.


Lemma codet5_run_logs
    (forward : Batch -> list (list (list R)))
    (args : CodeT5.Args) (main : bool) (train_dl : DataLoader)
    (eval_dl : option DataLoader) (N : nat) (todo : nat) :
  forall (epoch : nat) (g : Accelerate.GradientState) (gs : nat)
         (trace : list event),
    (forall e, length (batches train_dl e) = N) ->
    CodeT5.train_epochs forward args main train_dl eval_dl epoch todo g gs = Ok trace ->
    forall (e s : nat) (u : bool) (l : nat * scalar),
      In (Step e s u (Some l)) trace ->
      main = true /\ epoch <= e
      /\ fst l = gs + (e - epoch) * N + s + 1
      /\ fst l mod CodeT5.log_every args = 0.
Proof.
  induction todo as [|todo IH]; intros epoch g gs trace HN H e s u l Hin.
  - injection H as <-. destruct Hin.
  - cbn [CodeT5.train_epochs] in H. bind_inv H. injection H as <-.
    destruct (codet5_epoch_logs forward args main epoch _ _ _ _ Ha) as [Hgs Hlogs].
    cbn [CodeT5.global_step] in Hgs, Hlogs. rewrite HN in Hgs.
    apply in_app_or in Hin as [Hin|Hin].
    + destruct (Hlogs e s u l Hin) as [Hm [-> [_ [Hl Hmod]]]].
      repeat split; try assumption; lia.
    + apply in_app_or in Hin as [Hin|Hin].
      * destruct eval_dl as [dl|]; [destruct Hin as [Hin|[]]; discriminate Hin
                                   | destruct Hin].
      * destruct Hin as [Hin|Hin]; [discriminate Hin |].
        rewrite Hgs in Ha1.
        destruct (IH _ _ _ _ HN Ha1 e s u l Hin) as [Hm [He [Hl Hmod]]].
        repeat split; try assumption; try lia.
        rewrite Hl. replace (e - epoch) with (S (e - S epoch)) by lia. nia.
Qed.

(** *** When a run returns *)

Lemma batch_loss_returns
    (forward : Batch -> list (list (list R)))
    (args : RustElixirArgs) (batch : Batch) :
  language batch <> Some [] ->
  exists loss, batch_loss forward args batch = Ok loss.
Proof.
  intros Hlang. unfold batch_loss.
  destruct (cross_language_learning args); [| eauto].
  destruct (language batch) as [[|lang langs]|]; [congruence | | eauto].
  simpl. eauto.
Qed.

Lemma rust_elixir_epoch_returns
    (forward : Batch -> list (list (list R)))
    (args : RustElixirArgs) (epoch : nat) (todo : list Batch) :
  forall (step : nat) (g : Accelerate.GradientState),
    0 < gradient_accumulation args ->
    0 < log_every args ->
    Forall (fun batch => language batch <> Some []) todo ->
    exists run, train_epoch forward args epoch step todo g = Ok run.
Proof.
  induction todo as [|batch rest IH]; intros step g HK Hlog Hall.
  - simpl. eauto.
  - inversion Hall as [|? ? Hbatch Hrest]; subst. cbn [train_epoch].
    assert (Hacc : exists g1,
               Accelerate.accumulate (gradient_accumulation args) (is_nil rest) g
               = Ok g1).
    { unfold Accelerate.accumulate. destruct (is_nil rest); [eauto |].
      rewrite py_mod_pos by exact HK. simpl. eauto. }
    destruct Hacc as [g1 ->].
    destruct (batch_loss_returns forward args batch Hbatch) as [loss ->].
    cbn [bind]. rewrite py_mod_pos by exact Hlog.
    destruct (IH (S step) g1 HK Hlog Hrest) as [run Hrun].
    destruct (Accelerate.sync_gradients g1); cbn [bind]; rewrite Hrun; simpl; eauto.
Qed.

Lemma evaluation_returns
    (forward : Batch -> list (list (list R)))
    (eval_batches : list Batch) :
  eval_batches <> [] ->
  exists avg_eval_loss, evaluation forward eval_batches = Ok avg_eval_loss.
Proof.
  intros Hne. unfold evaluation.
  assert (H : forall l acc,
             snd (fold_left
                    (fun acc b =>
                       (sadd (fst acc) (loss (model forward b)), S (snd acc)))
                    l acc)
             = snd acc + length l).
  { induction l as [|b l IH]; intros acc; simpl; [lia |].
    rewrite IH. simpl. lia. }
  rewrite H. destruct eval_batches; [congruence |]. simpl. eauto.
Qed.

(** The language-aware driver completes its run when the window and the
    logging interval are positive, every training batch lists at least one
    language, and the evaluation set, if there is one, yields a batch in
    every epoch. *)
Lemma rust_elixir_train_returns
    (forward : Batch -> list (list (list R)))
    (args : RustElixirArgs) (train_dl : DataLoader) (eval_dl : option DataLoader) :
  0 < gradient_accumulation args ->
  0 < log_every args ->
  (forall e, Forall (fun batch => language batch <> Some []) (batches train_dl e)) ->
  (forall dl e, eval_dl = Some dl -> batches dl e <> []) ->
  exists declared trace, train forward args train_dl eval_dl = Ok (declared, trace).
Proof.
  intros HK Hlog Hall Heval. unfold train, num_training_steps, py_floordiv.
  destruct (Nat.eqb_spec (gradient_accumulation args) 0); [lia |]. cbn [bind].
  assert (H : forall todo epoch g,
             exists trace,
               train_epochs forward args train_dl eval_dl epoch todo g = Ok trace).
  { induction todo as [|todo IH]; intros epoch g; [simpl; eauto |].
    cbn [train_epochs].
    destruct (rust_elixir_epoch_returns forward args epoch (batches train_dl epoch)
                0 g HK Hlog (Hall epoch)) as [run ->].
    cbn [bind]. destruct (IH (S epoch) (fst run)) as [more Hmore].
    destruct eval_dl as [dl|].
    - destruct (evaluation_returns forward (batches dl epoch) (Heval dl epoch eq_refl))
        as [avg ->].
      cbn [bind]. rewrite Hmore. simpl. eauto.
    - cbn [bind]. rewrite Hmore. simpl. eauto. }
  destruct (H (epochs args) 0 Accelerate.initial) as [trace ->]. simpl. eauto.
Qed.

Lemma codet5_epoch_returns
    (forward : Batch -> list (list (list R)))
    (args : CodeT5.Args) (main : bool) (epoch : nat) (todo : list Batch) :
  forall (step : nat) (st : CodeT5.LoopState),
    0 < CodeT5.gradient_accumulation args ->
    0 < CodeT5.log_every args ->
    exists run, CodeT5.train_epoch forward args main epoch step todo st = Ok run.
Proof.
  induction todo as [|batch rest IH]; intros step st HK Hlog.
  - simpl. eauto.
  - cbn [CodeT5.train_epoch].
    assert (Hacc : exists g1,
               Accelerate.accumulate (CodeT5.gradient_accumulation args)
                 (is_nil rest) (CodeT5.gradient_state st)
               = Ok g1).
    { unfold Accelerate.accumulate. destruct (is_nil rest); [eauto |].
      rewrite py_mod_pos by exact HK. simpl. eauto. }
    destruct Hacc as [g1 ->]. cbn [bind]. rewrite py_mod_pos by exact Hlog.
    match goal with
    | |- context [CodeT5.train_epoch forward args main epoch (S step) rest ?st'] =>
        destruct (IH (S step) st' HK Hlog) as [run Hrun]
    end.
    destruct main; cbn [bind]; rewrite Hrun; simpl; eauto.
Qed.

(** The base driver completes its run when the window and the logging
    interval are positive and the training loader is not empty. *)
Lemma codet5_train_returns
    (forward : Batch -> list (list (list R)))
    (args : CodeT5.Args) (main : bool) (train_dl : DataLoader)
    (eval_dl : option DataLoader) :
  0 < CodeT5.gradient_accumulation args ->
  0 < CodeT5.log_every args ->
  0 < len train_dl ->
  exists declared trace,
    CodeT5.train forward args main train_dl eval_dl = Ok (declared, trace).
Proof.
  intros HK Hlog Hlen. unfold CodeT5.train, CodeT5.max_train_steps, py_ceildiv.
  destruct (Nat.eqb_spec (CodeT5.gradient_accumulation args) 0); [lia |].
  cbn [bind].
  assert (H : forall todo epoch g gs,
             exists trace,
               CodeT5.train_epochs forward args main train_dl eval_dl epoch todo g gs
               = Ok trace).
  { induction todo as [|todo IH]; intros epoch g gs; [simpl; eauto |].
    cbn [CodeT5.train_epochs].
    match goal with
    | |- context [CodeT5.train_epoch forward args main epoch 0 ?l ?st] =>
        destruct (codet5_epoch_returns forward args main epoch l 0 st HK Hlog)
          as [run ->]
    end.
    cbn [bind]. unfold CodeT5.epoch_mean.
    destruct (Nat.eqb_spec (len train_dl) 0); [lia |]. cbn [bind].
    destruct (IH (S epoch) (CodeT5.gradient_state (fst run))
                (CodeT5.global_step (fst run))) as [more ->].
    simpl. eauto. }
  destruct (H (CodeT5.epochs args) 0 Accelerate.initial 0) as [trace ->].
  simpl. eauto.
Qed.




(** *** What a run logs, and where *)

Lemma rust_elixir_epoch_marks
    (forward : Batch -> list (list (list R)))
    (args : RustElixirArgs) (epoch : nat) (todo : list Batch) :
  forall (step : nat) (g : Accelerate.GradientState)
         (run : Accelerate.GradientState * list event),
    train_epoch forward args epoch step todo g = Ok run ->
    map mark_of (snd run) = map (StepAt epoch) (seq step (length todo)).
Proof.
  induction todo as [|batch rest IH]; intros step g run H.
  - now injection H as <-.
  - cbn [train_epoch] in H. bind_inv H. injection H as <-.
    cbn [snd map mark_of length seq]. f_equal. exact (IH _ _ _ Ha2).
Qed.

Lemma codet5_epoch_marks
    (forward : Batch -> list (list (list R)))
    (args : CodeT5.Args) (main : bool) (epoch : nat) (todo : list Batch) :
  forall (step : nat) (st : CodeT5.LoopState) (run : CodeT5.LoopState * list event),
    CodeT5.train_epoch forward args main epoch step todo st = Ok run ->
    map mark_of (snd run) = map (StepAt epoch) (seq step (length todo)).
Proof.
  induction todo as [|batch rest IH]; intros step st run H.
  - now injection H as <-.
  - cbn [CodeT5.train_epoch] in H. bind_inv H. injection H as <-.
    cbn [snd map mark_of length seq]. f_equal. exact (IH _ _ _ Ha1).
Qed.

Lemma rust_elixir_run_marks
    (forward : Batch -> list (list (list R)))
    (args : RustElixirArgs) (train_dl : DataLoader) (eval_dl : option DataLoader)
    (N : nat) (todo : nat) :
  forall (epoch : nat) (g : Accelerate.GradientState) (trace : list event),
    (forall e, length (batches train_dl e) = N) ->
    train_epochs forward args train_dl eval_dl epoch todo g = Ok trace ->
    map mark_of trace = run_marks N todo (is_some eval_dl) false epoch.
Proof.
  induction todo as [|todo IH]; intros epoch g trace HN H.
  - now injection H as <-.
  - cbn [train_epochs] in H. bind_inv H. injection H as <-.
    unfold run_marks. cbn [seq flat_map]. fold (run_marks N todo (is_some eval_dl) false (S epoch)).
    rewrite !map_app, (IH _ _ _ HN Ha1).
    rewrite (rust_elixir_epoch_marks forward args epoch _ _ _ _ Ha), HN.
    unfold epoch_marks. rewrite <- !app_assoc. f_equal.
    destruct eval_dl as [dl|]; cbn [is_some app].
    + bind_inv Ha0. now injection Ha0 as <-.
    + now injection Ha0 as <-.
Qed.

Lemma codet5_run_marks
    (forward : Batch -> list (list (list R)))
    (args : CodeT5.Args) (main : bool) (train_dl : DataLoader)
    (eval_dl : option DataLoader) (N : nat) (todo : nat) :
  forall (epoch : nat) (g : Accelerate.GradientState) (gs : nat)
         (trace : list event),
    (forall e, length (batches train_dl e) = N) ->
    CodeT5.train_epochs forward args main train_dl eval_dl epoch todo g gs = Ok trace ->
    map mark_of trace = run_marks N todo (is_some eval_dl) true epoch.
Proof.
  induction todo as [|todo IH]; intros epoch g gs trace HN H.
  - now injection H as <-.
  - cbn [CodeT5.train_epochs] in H. bind_inv H. injection H as <-.
    unfold run_marks. cbn [seq flat_map]. fold (run_marks N todo (is_some eval_dl) true (S epoch)).
    rewrite !map_app. cbn [map mark_of]. rewrite (IH _ _ _ _ HN Ha1).
    rewrite (codet5_epoch_marks forward args main epoch _ _ _ _ Ha), HN.
    unfold epoch_marks. rewrite <- !app_assoc. f_equal.
    now destruct eval_dl.
Qed.

Lemma in_run_marks (N E : nat) (with_eval with_mean : bool) (first e s : nat) :
  first <= e < first + E ->
  s < N ->
  In (StepAt e s) (run_marks N E with_eval with_mean first).
Proof.
  intros He Hs. unfold run_marks. apply in_flat_map. exists e. split.
  - apply in_seq. lia.
  - unfold epoch_marks. apply in_or_app. left. apply in_map, in_seq. lia.
Qed.

Lemma step_of_mark (trace : list event) (e s : nat) :
  In (StepAt e s) (map mark_of trace) ->
  exists (u : bool) (l : option (nat * scalar)), In (Step e s u l) trace.
Proof.
  intros Hin. apply in_map_iff in Hin as [ev [Hev Hin]].
  destruct ev as [e' s' u l | e' report | e' m]; try discriminate Hev.
  injection Hev as -> ->. eauto.
Qed.

(** The language-aware driver: a micro-batch is logged exactly when it
    synchronizes and its index is a multiple of the interval. *)
Lemma rust_elixir_epoch_log_rule
    (forward : Batch -> list (list (list R)))
    (args : RustElixirArgs) (epoch : nat) (todo : list Batch) :
  forall (step : nat) (g : Accelerate.GradientState)
         (run : Accelerate.GradientState * list event),
    train_epoch forward args epoch step todo g = Ok run ->
    forall (e s : nat) (u : bool) (l : option (nat * scalar)),
      In (Step e s u l) (snd run) ->
      is_some l = u && (s mod log_every args =? 0)
      /\ forall (n : nat) (x : scalar), l = Some (n, x) -> n = s.
Proof.
  induction todo as [|batch rest IH]; intros step g run H e s u l Hin.
  - injection H as <-. destruct Hin.
  - cbn [train_epoch] in H. bind_inv H. injection H as <-.
    destruct Hin as [Heq|Hin]; [| exact (IH _ _ _ Ha2 e s u l Hin)].
    injection Heq as _ <- <- <-.
    destruct (Accelerate.sync_gradients a); cbn [andb].
    + apply bind_ok_inv in Ha1 as [r [Hr Hl]]. unfold py_mod in Hr.
      destruct (log_every args =? 0); [discriminate |].
      injection Hr as <-. injection Hl as <-.
      destruct (step mod log_every args =? 0); cbn [is_some].
      * split; [reflexivity |]. intros n x Hnx. now injection Hnx as <- _.
      * split; [reflexivity |]. intros n x Hnx. discriminate Hnx.
    + injection Ha1 as <-. split; [reflexivity |]. intros n x Hnx. discriminate Hnx.
Qed.

Lemma rust_elixir_run_log_rule
    (forward : Batch -> list (list (list R)))
    (args : RustElixirArgs) (train_dl : DataLoader) (eval_dl : option DataLoader)
    (todo : nat) :
  forall (epoch : nat) (g : Accelerate.GradientState) (trace : list event),
    train_epochs forward args train_dl eval_dl epoch todo g = Ok trace ->
    forall (e s : nat) (u : bool) (l : option (nat * scalar)),
      In (Step e s u l) trace ->
      is_some l = u && (s mod log_every args =? 0)
      /\ forall (n : nat) (x : scalar), l = Some (n, x) -> n = s.
Proof.
  induction todo as [|todo IH]; intros epoch g trace H e s u l Hin.
  - injection H as <-. destruct Hin.
  - cbn [train_epochs] in H. bind_inv H. injection H as <-.
    apply in_app_or in Hin as [Hin|Hin].
    + exact (rust_elixir_epoch_log_rule forward args epoch _ _ _ _ Ha e s u l Hin).
    + apply in_app_or in Hin as [Hin|Hin].
      * destruct eval_dl as [dl|].
        -- bind_inv Ha0. injection Ha0 as <-.
           destruct Hin as [Hin|[]]. discriminate Hin.
        -- injection Ha0 as <-. destruct Hin.
      * exact (IH _ _ _ Ha1 e s u l Hin).
Qed.

(** The base driver: on the main process a micro-batch is logged exactly
    when the count of micro-batches seen so far is a multiple of the
    interval. *)
Lemma codet5_epoch_log_rule
    (forward : Batch -> list (list (list R)))
    (args : CodeT5.Args) (main : bool) (epoch : nat) (todo : list Batch) :
  forall (step : nat) (st : CodeT5.LoopState) (run : CodeT5.LoopState * list event),
    CodeT5.train_epoch forward args main epoch step todo st = Ok run ->
    forall (e s : nat) (u : bool) (l : option (nat * scalar)),
      In (Step e s u l) (snd run) ->
      e = epoch /\ step <= s
      /\ is_some l
         = main && ((CodeT5.global_step st + (s - step) + 1)
                    mod CodeT5.log_every args =? 0)
      /\ forall (n : nat) (x : scalar),
          l = Some (n, x) -> n = CodeT5.global_step st + (s - step) + 1.
Proof.
  induction todo as [|batch rest IH]; intros step st run H e s u l Hin.
  - injection H as <-. destruct Hin.
  - cbn [CodeT5.train_epoch] in H. bind_inv H. injection H as <-.
    destruct Hin as [Heq|Hin].
    + injection Heq as <- <- _ <-.
      replace (CodeT5.global_step st + (step - step) + 1)
        with (S (CodeT5.global_step st)) by lia.
      split; [reflexivity |]. split; [lia |].
      destruct main; cbn [andb].
      * apply bind_ok_inv in Ha0 as [r [Hr Hl]]. unfold py_mod in Hr.
        destruct (CodeT5.log_every args =? 0); [discriminate |].
        injection Hr as <-. injection Hl as <-.
        destruct (S (CodeT5.global_step st) mod CodeT5.log_every args =? 0);
          cbn [is_some].
        -- split; [reflexivity |]. intros n x Hnx. now injection Hnx as <- _.
        -- split; [reflexivity |]. intros n x Hnx. discriminate Hnx.
      * injection Ha0 as <-. split; [reflexivity |]. intros n x Hnx. discriminate Hnx.
    + destruct (IH _ _ _ Ha1 e s u l Hin) as [He [Hs [Hl Hn]]].
      cbn [CodeT5.global_step] in Hl, Hn.
      replace (S (CodeT5.global_step st) + (s - S step) + 1)
        with (CodeT5.global_step st + (s - step) + 1) in Hl, Hn by lia.
      repeat split; try assumption; lia.
Qed.

Lemma codet5_run_log_rule
    (forward : Batch -> list (list (list R)))
    (args : CodeT5.Args) (main : bool) (train_dl : DataLoader)
    (eval_dl : option DataLoader) (N : nat) (todo : nat) :
  forall (epoch : nat) (g : Accelerate.GradientState) (gs : nat)
         (trace : list event),
    (forall e, length (batches train_dl e) = N) ->
    CodeT5.train_epochs forward args main train_dl eval_dl epoch todo g gs = Ok trace ->
    forall (e s : nat) (u : bool) (l : option (nat * scalar)),
      In (Step e s u l) trace ->
      epoch <= e
      /\ is_some l
         = main && ((gs + (e - epoch) * N + s + 1) mod CodeT5.log_every args =? 0)
      /\ forall (n : nat) (x : scalar),
          l = Some (n, x) -> n = gs + (e - epoch) * N + s + 1.
Proof.
  induction todo as [|todo IH]; intros epoch g gs trace HN H e s u l Hin.
  - injection H as <-. destruct Hin.
  - cbn [CodeT5.train_epochs] in H. bind_inv H. injection H as <-.
    destruct (codet5_epoch_logs forward args main epoch _ _ _ _ Ha) as [Hgs _].
    cbn [CodeT5.global_step] in Hgs. rewrite HN in Hgs.
    apply in_app_or in Hin as [Hin|Hin].
    + destruct (codet5_epoch_log_rule forward args main epoch _ _ _ _ Ha e s u l Hin)
        as [-> [_ [Hl Hn]]].
      cbn [CodeT5.global_step] in Hl, Hn.
      rewrite Nat.sub_diag, Nat.sub_0_r in *. cbn [Nat.mul]. rewrite Nat.add_0_r.
      split; [lia |]. split; assumption.
    + apply in_app_or in Hin as [Hin|Hin].
      * destruct eval_dl as [dl|]; [destruct Hin as [Hin|[]]; discriminate Hin
                                   | destruct Hin].
      * destruct Hin as [Hin|Hin]; [discriminate Hin |].
        rewrite Hgs in Ha1.
        destruct (IH _ _ _ _ HN Ha1 e s u l Hin) as [He [Hl Hn]].
        replace (gs + N + (e - S epoch) * N + s + 1)
          with (gs + (e - epoch) * N + s + 1) in Hl, Hn
          by (replace (e - epoch) with (S (e - S epoch)) by lia; simpl; lia).
        split; [lia |]. split; assumption.
Qed.

(** C4, as the code has it.  Every micro-batch of a run has its step, and:
    the language-aware driver logs a loss on exactly the micro-batches on
    which the optimizer update is applied and whose step index is a
    multiple of the logging interval; the base driver logs, on the main
    process, on exactly the micro-batches for which the number of
    micro-batches seen since the start of the run is a multiple of the
    logging interval, whether an update is applied or not. *)
Theorem logging_steps
    (forward : Batch -> list (list (list R)))
    (rargs : RustElixirArgs) (cargs : CodeT5.Args) (main : bool)
    (train_dl : DataLoader) (eval_dl eval_dl' : option DataLoader) (N : nat)
    (declared_r declared_c : nat) (trace_r trace_c : list event) :
  (forall e, length (batches train_dl e) = N) ->
  train forward rargs train_dl eval_dl = Ok (declared_r, trace_r) ->
  CodeT5.train forward cargs main train_dl eval_dl' = Ok (declared_c, trace_c) ->
  (forall (e s : nat) (u : bool) (l : option (nat * scalar)),
      In (Step e s u l) trace_r ->
      is_some l = u && (s mod log_every rargs =? 0))
  /\ (forall (e s : nat) (u : bool) (l : option (nat * scalar)),
         In (Step e s u l) trace_c ->
         is_some l
         = main && ((e * N + s + 1) mod CodeT5.log_every cargs =? 0)
         /\ forall (n : nat) (x : scalar), l = Some (n, x) -> n = e * N + s + 1)
  /\ (forall e s : nat,
         e < epochs rargs -> s < N ->
         exists (u : bool) (l : option (nat * scalar)), In (Step e s u l) trace_r)
  /\ (forall e s : nat,
         e < CodeT5.epochs cargs -> s < N ->
         exists (u : bool) (l : option (nat * scalar)), In (Step e s u l) trace_c).
Proof.
  intros HN Hr Hc.
  unfold train in Hr. unfold CodeT5.train in Hc.
  bind_inv Hr. bind_inv Hc. injection Hr as _ <-. injection Hc as _ <-.
  split; [| split; [| split]].
  - intros e s u l Hin.
    exact (proj1 (rust_elixir_run_log_rule forward rargs train_dl eval_dl _ _ _ _ Ha0
                    e s u l Hin)).
  - intros e s u l Hin.
    destruct (codet5_run_log_rule forward cargs main train_dl eval_dl' N _ _ _ _ _
                HN Ha2 e s u l Hin) as [_ [Hl Hn]].
    rewrite Nat.sub_0_r in Hl, Hn. cbn [Nat.add] in Hl, Hn. split; assumption.
  - intros e s He Hs. apply step_of_mark.
    rewrite (rust_elixir_run_marks forward rargs train_dl eval_dl N _ _ _ _ HN Ha0).
    apply in_run_marks; lia.
  - intros e s He Hs. apply step_of_mark.
    rewrite (codet5_run_marks forward cargs main train_dl eval_dl' N _ _ _ _ _ HN Ha2).
    apply in_run_marks; lia.
Qed.

Lemma logging_steps_witness :
  exists (declared_r declared_c : nat) (trace_r trace_c : list event),
    train Examples.forward Examples.args Examples.train_dl None
    = Ok (declared_r, trace_r)
    /\ CodeT5.train Examples.forward Examples.base_args true Examples.train_dl None
       = Ok (declared_c, trace_c)
    /\ (forall (e s : nat) (u : bool) (l : option (nat * scalar)),
           In (Step e s u l) trace_r ->
           is_some l = u && (s mod 1 =? 0))
    /\ (forall (e s : nat) (u : bool) (l : option (nat * scalar)),
           In (Step e s u l) trace_c ->
           is_some l = true && ((e * 3 + s + 1) mod 1 =? 0)
           /\ forall (n : nat) (x : scalar), l = Some (n, x) -> n = e * 3 + s + 1)
    /\ (forall e s : nat,
           e < 1 -> s < 3 ->
           exists (u : bool) (l : option (nat * scalar)), In (Step e s u l) trace_r)
    /\ (forall e s : nat,
           e < 1 -> s < 3 ->
           exists (u : bool) (l : option (nat * scalar)), In (Step e s u l) trace_c).
Proof.
  do 4 eexists.
  split; [reflexivity |]. split; [reflexivity |].
  eapply (logging_steps Examples.forward Examples.args Examples.base_args true
            Examples.train_dl None None 3); reflexivity.
Defined.

(** The counterexample to C4 as it is worded: with a window of two and a
    logging interval of one, the base driver logs the running loss on the
    first micro-batch, on which no update is applied. *)
Lemma codet5_logs_mid_accumulation :
  exists (declared : nat) (trace : list event) (loss : scalar),
    CodeT5.train Examples.forward Examples.base_args true Examples.train_dl None
    = Ok (declared, trace)
    /\ In (Step 0 0 false (Some (1, loss))) trace.
Proof.
  do 3 eexists. split; [reflexivity |]. left. reflexivity.
Qed.

(** C2. The evaluation of the language-aware driver divides by the number
    of evaluation steps without a guard: on an evaluation set that yields no
    batch it raises, where the base driver prints nothing. *)
Theorem evaluation_divides_by_zero
    (forward : Batch -> list (list (list R))) :
  evaluation forward [] = Raise ZeroDivisionError
  /\ CodeT5.evaluate forward [] = None.
Proof.
  split.
  - unfold evaluation. cbn [fold_left fst snd Nat.eqb]. reflexivity.
  - unfold CodeT5.evaluate. cbn [map is_nil]. reflexivity.
Qed.

(** The whole run of the language-aware driver then stops after the first
    epoch; the base driver goes on. *)
Example rust_elixir_run_raises_on_empty_evaluation :
  train Examples.forward Examples.args Examples.train_dl (Some Examples.empty_dl)
  = Raise ZeroDivisionError.
Proof. reflexivity. Qed.

Example codet5_run_skips_empty_evaluation :
  exists (declared : nat) (trace : list event),
    CodeT5.train Examples.forward Examples.base_args true Examples.train_dl
      (Some Examples.empty_dl)
    = Ok (declared, trace)
    /\ In (Eval 0 None) trace.
Proof.
  do 2 eexists. split; [reflexivity |]. do 3 right. left. reflexivity.
Qed.

(** * Part III: further properties of the scripts *)

(** ** Trimming, again *)

Lemma all_space_forallb (ws : str) : forallb isspace ws = true <-> all_space ws.
Proof.
  unfold all_space. rewrite forallb_forall, Forall_forall. reflexivity.
Qed.

Lemma lstrip_all_space (ws s : str) :
  forallb isspace ws = true -> lstrip (ws ++ s) = lstrip s.
Proof.
  induction ws as [|c ws IH]; simpl; [reflexivity |].
  intros H. apply andb_true_iff in H as [Hc Hws]. rewrite Hc. now apply IH.
Qed.

Lemma forallb_isspace_rev (ws : str) :
  forallb isspace ws = true -> forallb isspace (rev ws) = true.
Proof.
  rewrite !forallb_forall. intros H c Hc. apply H. now apply in_rev.
Qed.

Lemma rstrip_all_space (s ws : str) :
  forallb isspace ws = true -> rstrip (s ++ ws) = rstrip s.
Proof.
  intros H. unfold rstrip. rewrite rev_app_distr.
  now rewrite lstrip_all_space by now apply forallb_isspace_rev.
Qed.

Lemma lstrip_app (s t : str) :
  lstrip (s ++ t) = if is_empty (lstrip s) then lstrip t else lstrip s ++ t.
Proof.
  induction s as [|c s IH]; simpl; [reflexivity |].
  destruct (isspace c); [exact IH | reflexivity].
Qed.

Lemma lstrip_fixed (t : str) : no_leading_space t -> lstrip t = t.
Proof. destruct t as [|c t]; simpl; [reflexivity | now intros ->]. Qed.

Lemma rstrip_fixed (t : str) : no_trailing_space t -> rstrip t = t.
Proof.
  unfold no_trailing_space, rstrip. intros H.
  rewrite lstrip_fixed by exact H. apply rev_involutive.
Qed.

Lemma strip_all_space (lead s ws : str) :
  forallb isspace lead = true ->
  forallb isspace ws = true ->
  strip (lead ++ s ++ ws) = strip s.
Proof.
  intros Hlead Hws. unfold strip.
  rewrite lstrip_all_space by exact Hlead. rewrite lstrip_app.
  destruct (lstrip s) as [|c l] eqn:El; cbn [is_empty].
  - now rewrite <- (app_nil_r ws), lstrip_all_space.
  - now apply rstrip_all_space.
Qed.

(** Trimming on both sides is trimming on the right, then on the left. *)
Lemma strip_lstrip_rstrip (s : str) : strip s = lstrip (rstrip s).
Proof.
  unfold strip.
  destruct (rstrip_spec s) as [post [Heq [Hpost Hno]]].
  apply all_space_forallb in Hpost.
  rewrite Heq at 1. rewrite lstrip_app.
  destruct (lstrip (rstrip s)) as [|c l] eqn:El; cbn [is_empty].
  - now rewrite <- (app_nil_r post), lstrip_all_space.
  - rewrite rstrip_all_space by exact Hpost. apply rstrip_fixed.
    destruct (lstrip_spec (rstrip s)) as [pre [Hpre _]]. rewrite El in Hpre.
    unfold no_trailing_space in *. rewrite Hpre, rev_app_distr in Hno.
    now apply no_leading_space_prefix in Hno.
Qed.

Lemma starts_with_space_false (s : str) :
  starts_with_space s = false -> lstrip s = s.
Proof. destruct s as [|c s]; simpl; [reflexivity | now intros ->]. Qed.

(** ** The normalizers and the evaluation prompt *)

(** X1. Whitespace around the instruction and after the input and the output
    never reaches the model: both normalizers give the same result, entry or
    exception, with and without it. *)
Theorem format_ignores_outer_whitespace
    (tokenizer target_tokenizer : str -> nat -> list Z)
    (instruction input output lead ws1 ws2 ws3 : str) (score : option R) :
  forallb isspace lead = true ->
  forallb isspace ws1 = true ->
  forallb isspace ws2 = true ->
  forallb isspace ws3 = true ->
  (forall args,
      CodeT5._format tokenizer target_tokenizer args
        {| row_instruction := Some (lead ++ instruction ++ ws1);
           row_input := Some (input ++ ws2);
           row_output := Some (output ++ ws3);
           row_quality_score := score |}
      = CodeT5._format tokenizer target_tokenizer args
          {| row_instruction := Some instruction;
             row_input := Some input;
             row_output := Some output;
             row_quality_score := score |})
  /\ (forall args,
         _format_rust_elixir tokenizer target_tokenizer args
           {| row_instruction := Some (lead ++ instruction ++ ws1);
              row_input := Some (input ++ ws2);
              row_output := Some (output ++ ws3);
              row_quality_score := score |}
         = _format_rust_elixir tokenizer target_tokenizer args
             {| row_instruction := Some instruction;
                row_input := Some input;
                row_output := Some output;
                row_quality_score := score |}).
Proof.
  intros Hlead H1 H2 H3. split; intros args.
  - rewrite !codet5_format_eq. cbn [row_instruction row_input row_output get].
    now rewrite strip_all_space, !rstrip_all_space.
  - rewrite !rust_elixir_format_eq.
    cbn [row_instruction row_input row_output row_quality_score get].
    now rewrite strip_all_space, !rstrip_all_space.
Qed.

Lemma format_ignores_outer_whitespace_witness :
  (forall args,
      CodeT5._format code_points code_points args
        {| row_instruction := Some (nl ++ lit "Add docs" ++ lit "  ");
           row_input := Some (lit "  def f" ++ nl);
           row_output := Some (lit "  def g" ++ nl ++ nl);
           row_quality_score := None |}
      = CodeT5._format code_points code_points args
          {| row_instruction := Some (lit "Add docs");
             row_input := Some (lit "  def f");
             row_output := Some (lit "  def g");
             row_quality_score := None |})
  /\ (forall args,
         _format_rust_elixir code_points code_points args
           {| row_instruction := Some (nl ++ lit "Add docs" ++ lit "  ");
              row_input := Some (lit "  def f" ++ nl);
              row_output := Some (lit "  def g" ++ nl ++ nl);
              row_quality_score := None |}
         = _format_rust_elixir code_points code_points args
             {| row_instruction := Some (lit "Add docs");
                row_input := Some (lit "  def f");
                row_output := Some (lit "  def g");
                row_quality_score := None |}).
Proof.
  apply (format_ignores_outer_whitespace code_points code_points
           (lit "Add docs") (lit "  def f") (lit "  def g")
           nl (lit "  ") nl (nl ++ nl) None); reflexivity.
Defined.

Lemma eval_prompt_eq (sample : Row) :
  EvalCodeT5.prompt sample
  = Ok (strip (get (row_instruction sample) []) ++ nl ++ nl
        ++ strip (get (row_input sample) []) ++ nl ++ nl
        ++ lit "### Desired Output").
Proof.
  unfold EvalCodeT5.prompt, fstring.
  replace (fscan InText EvalCodeT5.prompt_literal)
    with (Ok [FField (lit "instruction") []; FText (nl ++ nl);
              FField (lit "source") []; FText (nl ++ nl ++ lit "### Desired Output")])
    by (vm_compute; reflexivity).
  reflexivity.
Qed.

(** X2. The evaluation script asks the model to complete the prompt the
    training script encoded, except that it also drops the leading
    whitespace of the input, which training keeps. *)
Theorem eval_prompt_drops_leading_whitespace
    (tokenizer target_tokenizer : str -> nat -> list Z)
    (args : CodeT5.Args) (sample : Row) :
  exists instruction src,
    trimmed_both (get (row_instruction sample) []) instruction
    /\ trimmed_right (get (row_input sample) []) src
    /\ result_map CodeT5.enc_input_ids
         (CodeT5._format tokenizer target_tokenizer args sample)
       = Ok (tokenizer (instruction ++ nl ++ nl ++ src ++ nl ++ nl
                        ++ lit "### Desired Output") (CodeT5.max_seq_len args))
    /\ EvalCodeT5.prompt sample
       = Ok (instruction ++ nl ++ nl ++ lstrip src ++ nl ++ nl
             ++ lit "### Desired Output")
    /\ (starts_with_space src = false -> lstrip src = src).
Proof.
  exists (strip (get (row_instruction sample) [])),
         (rstrip (get (row_input sample) [])).
  split; [apply strip_spec |]. split; [apply rstrip_spec |].
  split; [now rewrite codet5_format_eq |].
  split; [| apply starts_with_space_false].
  rewrite eval_prompt_eq. now rewrite (strip_lstrip_rstrip (get (row_input sample) [])).
Qed.

(** The two prompts do differ on an indented input. *)
Example eval_prompt_differs_from_training_prompt :
  exists entry prompt,
    CodeT5._format code_points code_points Examples.base_args
      {| row_instruction := Some (lit "fix");
         row_input := Some (lit "  x");
         row_output := Some (lit "y");
         row_quality_score := None |}
    = Ok entry
    /\ EvalCodeT5.prompt
         {| row_instruction := Some (lit "fix");
            row_input := Some (lit "  x");
            row_output := Some (lit "y");
            row_quality_score := None |}
       = Ok prompt
    /\ CodeT5.enc_input_ids entry <> code_points prompt 64.
Proof.
  do 2 eexists. split; [rewrite codet5_format_eq; reflexivity |].
  split; [rewrite eval_prompt_eq; reflexivity |].
  vm_compute. discriminate.
Qed.

(** ** Streaming the evaluation examples *)

Lemma stream_examples_from_eq (loads : str -> result Row) (limit : Z)
    (lines : list str) :
  forall idx : nat,
    EvalCodeT5.stream_examples_from loads limit idx lines
    = map_rows loads
        (firstn (if (limit =? 0)%Z then length lines else Z.to_nat limit - idx)
           lines).
Proof.
  induction lines as [|line lines IH]; intros idx.
  - simpl. now destruct (limit =? 0)%Z; destruct (Z.to_nat limit - idx).
  - cbn [EvalCodeT5.stream_examples_from]. rewrite IH.
    destruct (Z.eqb_spec limit 0) as [->|Hne]; cbn [negb andb].
    + reflexivity.
    + destruct (Z.leb_spec limit (Z.of_nat idx)) as [Hle|Hgt].
      * replace (Z.to_nat limit - idx) with 0 by lia. reflexivity.
      * replace (Z.to_nat limit - idx) with (S (Z.to_nat limit - S idx)) by lia.
        reflexivity.
Qed.

(** X3. [stream_examples] parses the first [limit] lines of the file and no
    other: a line after the limit is never parsed, so it cannot make the
    script fail.  A limit of zero means no limit, and a negative limit
    yields nothing. *)
Theorem stream_examples_limit (loads : str -> result Row) (lines : list str)
    (limit : Z) :
  EvalCodeT5.stream_examples loads lines limit
  = map_rows loads
      (firstn (if (limit =? 0)%Z then length lines else Z.to_nat limit) lines).
Proof.
  unfold EvalCodeT5.stream_examples. rewrite stream_examples_from_eq.
  now rewrite Nat.sub_0_r.
Qed.

(** ** The classifier on larger texts *)

Lemma substring_app (needle s pre post : str) :
  Substring needle s -> Substring needle (pre ++ s ++ post).
Proof.
  intros [a [b ->]]. exists (pre ++ a), (b ++ post).
  now rewrite <- !app_assoc.
Qed.

Lemma elixir_marked_app (s pre post : str) :
  elixir_marked s -> elixir_marked (pre ++ s ++ post).
Proof.
  unfold elixir_marked. intros [H|[H|H]]; auto using substring_app.
Qed.

Lemma rust_marked_app (s pre post : str) :
  rust_marked s -> rust_marked (pre ++ s ++ post).
Proof.
  unfold rust_marked. intros [H|[H|H]]; auto using substring_app.
Qed.

Lemma detect_elixir_iff (content : str) :
  eqb (detect_language_from_content content) (lit "elixir") = true
  <-> elixir_marked content.
Proof.
  rewrite <- elixir_marked_dec. unfold detect_language_from_content.
  destruct (contains (lit "defmodule") content
            || contains (lit "def ") content
            || contains (lit "|>") content); [split; reflexivity |].
  destruct (contains (lit "fn ") content
            || contains (lit "struct ") content
            || contains (lit "impl ") content); split; discriminate.
Qed.

Lemma detect_unknown_iff (content : str) :
  eqb (detect_language_from_content content) (lit "unknown") = false
  <-> elixir_marked content \/ rust_marked content.
Proof.
  rewrite <- elixir_marked_dec, <- rust_marked_dec.
  unfold detect_language_from_content.
  destruct (contains (lit "defmodule") content
            || contains (lit "def ") content
            || contains (lit "|>") content); [split; auto |].
  destruct (contains (lit "fn ") content
            || contains (lit "struct ") content
            || contains (lit "impl ") content).
  - split; auto.
  - split; [discriminate | intros [H|H]; discriminate H].
Qed.

(** X4. The tag of a text survives when the text is embedded in a larger
    one: a text that is not [unknown] stays recognised with anything before
    and after it, and a text tagged [elixir] stays [elixir]. *)
Theorem detect_language_in_context (content before after : str) :
  eqb (detect_language_from_content content) (lit "unknown") = false ->
  eqb (detect_language_from_content (before ++ content ++ after)) (lit "unknown")
  = false
  /\ (eqb (detect_language_from_content content) (lit "elixir") = true ->
      eqb (detect_language_from_content (before ++ content ++ after)) (lit "elixir")
      = true).
Proof.
  intros H. split.
  - apply detect_unknown_iff. apply detect_unknown_iff in H as [H|H].
    + left. now apply elixir_marked_app.
    + right. now apply rust_marked_app.
  - intros He. apply detect_elixir_iff. apply detect_elixir_iff in He.
    now apply elixir_marked_app.
Qed.

Lemma detect_language_in_context_witness :
  eqb (detect_language_from_content
         (lit "// helper" ++ nl ++ lit "fn main() {}" ++ nl ++ lit "// end"))
    (lit "unknown")
  = false
  /\ (eqb (detect_language_from_content (lit "fn main() {}")) (lit "elixir") = true ->
      eqb (detect_language_from_content
             (lit "// helper" ++ nl ++ lit "fn main() {}" ++ nl ++ lit "// end"))
        (lit "elixir")
      = true).
Proof.
  apply (detect_language_in_context (lit "fn main() {}")
           (lit "// helper" ++ nl) (nl ++ lit "// end")).
  reflexivity.
Defined.

(** A text tagged [rust] can turn [elixir] in a larger text. *)
Example detect_rust_turns_elixir :
  detect_language_from_content (lit "fn main() {}") = lit "rust"
  /\ detect_language_from_content (lit "fn main() {}" ++ lit " // a |> b")
     = lit "elixir".
Proof. split; reflexivity. Qed.

(** ** Loading the data *)

Lemma map_rows_outcome {A B : Type} (f : A -> result B) (bad : A -> bool) (e : exn)
    (rows : list A) :
  (forall row, if bad row then f row = Raise e else exists entry, f row = Ok entry) ->
  if existsb bad rows then map_rows f rows = Raise e
  else exists entries,
      map_rows f rows = Ok entries /\ length entries = length rows.
Proof.
  intros Hf. induction rows as [|row rows IH]; cbn [existsb map_rows].
  - now exists [].
  - specialize (Hf row). destruct (bad row); cbn [orb].
    + now rewrite Hf.
    + destruct Hf as [entry ->]. cbn [bind].
      destruct (existsb bad rows).
      * now rewrite IH.
      * destruct IH as [entries [-> Hlen]]. cbn [bind].
        exists (entry :: entries). split; [reflexivity | simpl; now rewrite Hlen].
Qed.

Lemma text_field_outcome (field : option value) :
  if is_text field
  then exists text, text_field field = Ok text
  else text_field field = Raise AttributeError.
Proof. destruct field as [[| | | | |  |]|]; simpl; eauto. Qed.

Lemma format_raw_outcome
    (tokenizer target_tokenizer : str -> nat -> list Z) (args : CodeT5.Args)
    (raw : JsonRow) :
  if malformed raw
  then _format_raw tokenizer target_tokenizer args raw = Raise AttributeError
  else exists entry, _format_raw tokenizer target_tokenizer args raw = Ok entry.
Proof.
  unfold malformed, _format_raw.
  pose proof (text_field_outcome (json_instruction raw)) as Hi.
  pose proof (text_field_outcome (json_input raw)) as Hs.
  pose proof (text_field_outcome (json_output raw)) as Ho.
  destruct (is_text (json_instruction raw)); cbn [andb negb];
    [destruct Hi as [i ->] | now rewrite Hi].
  destruct (is_text (json_input raw)); cbn [andb negb bind];
    [destruct Hs as [src ->] | now rewrite Hs].
  destruct (is_text (json_output raw)); cbn [andb negb bind];
    [destruct Ho as [tgt ->] | now rewrite Ho].
  cbn [bind]. apply codet5_format_total.
Qed.

(** X6. The base script's [load_datasets] stops with an [AttributeError]
    exactly when a record it reads, of the training file or of the
    evaluation file, has an instruction, input or output that is present
    but not a string (a null, say).  Otherwise it keeps one entry per
    record of the training file, and has a validation split, with one entry
    per record, exactly when an evaluation file is named by a non-empty
    string. *)
Theorem codet5_load_datasets_outcome
    (read : str -> list JsonRow) (tokenizer target_tokenizer : str -> nat -> list Z)
    (args : CodeT5.Args) (train_file : str) (eval_file : option str) :
  if existsb malformed (records_read read train_file eval_file)
  then load_datasets read (_format_raw tokenizer target_tokenizer args)
         train_file eval_file
       = Raise AttributeError
  else exists splits,
      load_datasets read (_format_raw tokenizer target_tokenizer args)
        train_file eval_file
      = Ok splits
      /\ length (split_train splits) = length (read train_file)
      /\ match eval_file with
         | Some path =>
             if is_empty path then split_validation splits = None
             else exists validation,
                 split_validation splits = Some validation
                 /\ length validation = length (read path)
         | None => split_validation splits = None
         end.
Proof.
  unfold records_read, load_datasets. rewrite existsb_app.
  pose proof (map_rows_outcome (_format_raw tokenizer target_tokenizer args)
                malformed AttributeError (read train_file)
                (format_raw_outcome tokenizer target_tokenizer args)) as Ht.
  destruct (existsb malformed (read train_file)); cbn [orb].
  - now rewrite Ht.
  - destruct Ht as [train [-> Htrain]]. cbn [bind].
    destruct eval_file as [path|].
    + destruct path as [|c path]; cbn [is_empty existsb].
      * eexists. split; [reflexivity |]. split; [exact Htrain | reflexivity].
      * pose proof (map_rows_outcome (_format_raw tokenizer target_tokenizer args)
                      malformed AttributeError (read (c :: path))
                      (format_raw_outcome tokenizer target_tokenizer args)) as Hv.
        destruct (existsb malformed (read (c :: path))).
        -- now rewrite Hv.
        -- destruct Hv as [validation [-> Hval]]. cbn [bind].
           eexists. split; [reflexivity |]. split; [exact Htrain |].
           now exists validation.
    + cbn [existsb]. eexists. split; [reflexivity |].
      split; [exact Htrain | reflexivity].
Qed.

(** A record whose instruction is null stops the loading, although the
    records around it are well formed. *)
Example null_instruction_stops_the_loading :
  load_datasets
    (fun _ => [ {| json_instruction := Some (VStr (lit "Add"));
                   json_input := None;
                   json_output := Some (VStr (lit "a + b")) |};
                {| json_instruction := Some VNone;
                   json_input := Some (VStr (lit "x"));
                   json_output := Some (VStr (lit "y")) |} ])
    (_format_raw code_points code_points Examples.base_args)
    (lit "train.jsonl") None
  = Raise AttributeError.
Proof. reflexivity. Qed.

(** ** The weights and the loss *)

Lemma fold_left_ext_in {A B : Type} (f g : A -> B -> A) (l : list B) :
  (forall x, In x l -> forall a, f a x = g a x) ->
  forall a, fold_left f l a = fold_left g l a.
Proof.
  induction l as [|x l IH]; intros H a; simpl; [reflexivity |].
  rewrite (H x (or_introl eq_refl)). apply IH. intros y Hy. apply H. now right.
Qed.

Lemma enumerate_from_snd {A : Type} (l : list A) :
  forall (i : nat) (x : nat * A), In x (enumerate_from i l) -> In (snd x) l.
Proof.
  induction l as [|y l IH]; intros i x Hx; [destruct Hx |].
  destruct Hx as [<-|Hx]; [now left | right; exact (IH _ _ Hx)].
Qed.

(** The tags of a batch; none when it has no [language] key. *)
Lemma batch_loss_weights
    (forward : Batch -> list (list (list R)))
    (args args' : RustElixirArgs) (batch : Batch) :
  cross_language_learning args' = cross_language_learning args ->
  (forall lang, In lang (get (language batch) []) ->
                forall lg lb,
                  calculate_weighted_loss lg lb lang (rust_weight args')
                    (elixir_weight args')
                  = calculate_weighted_loss lg lb lang (rust_weight args)
                      (elixir_weight args)) ->
  batch_loss forward args' batch = batch_loss forward args batch.
Proof.
  intros Hon Hw. unfold batch_loss. rewrite Hon.
  destruct (cross_language_learning args); [| reflexivity].
  destruct (language batch) as [languages|]; [| reflexivity].
  cbn [get] in Hw. f_equal.
  rewrite (fold_left_ext_in
             (fun total il =>
                sadd total
                  (calculate_weighted_loss
                     (slice1 (fst il) (logits (model forward batch)))
                     (slice1 (fst il) (labels batch)) (snd il)
                     (rust_weight args') (elixir_weight args')))
             (fun total il =>
                sadd total
                  (calculate_weighted_loss
                     (slice1 (fst il) (logits (model forward batch)))
                     (slice1 (fst il) (labels batch)) (snd il)
                     (rust_weight args) (elixir_weight args)))); [reflexivity |].
  intros x Hx a. f_equal. apply Hw. exact (enumerate_from_snd _ _ _ Hx).
Qed.

(** X8. A weight only weighs the examples of its own language: on a batch
    without an example tagged [rust] the loss is the same for every
    [--rust-weight], and likewise for [elixir]. *)
Theorem weights_weigh_their_language_only
    (forward : Batch -> list (list (list R)))
    (args : RustElixirArgs) (w : R) (batch : Batch) :
  (forallb (fun lang => negb (eqb lang (lit "rust"))) (get (language batch) []) = true ->
   batch_loss forward (with_rust_weight w args) batch = batch_loss forward args batch)
  /\ (forallb (fun lang => negb (eqb lang (lit "elixir"))) (get (language batch) [])
      = true ->
      batch_loss forward (with_elixir_weight w args) batch
      = batch_loss forward args batch).
Proof.
  split; intros Hnone; apply batch_loss_weights; try reflexivity;
    intros lang Hlang lg lb; rewrite forallb_forall in Hnone;
    specialize (Hnone lang Hlang); apply negb_true_iff in Hnone;
    unfold calculate_weighted_loss;
    cbn [with_rust_weight with_elixir_weight rust_weight elixir_weight].
  - now rewrite Hnone.
  - rewrite Hnone. reflexivity.
Qed.

Lemma weights_weigh_their_language_only_witness :
  batch_loss Examples.forward (with_rust_weight 5 Examples.args)
    MoreExamples.elixir_batch
  = batch_loss Examples.forward Examples.args MoreExamples.elixir_batch.
Proof.
  apply (proj1 (weights_weigh_their_language_only Examples.forward Examples.args 5
                  MoreExamples.elixir_batch)).
  reflexivity.
Defined.

(** One example without a kept label makes the running sum [nan]. *)
Lemma sadd_nan_absorbs {A : Type} (f : A -> scalar) (l : list A) :
  fold_left (fun total x => sadd total (f x)) l NaN = NaN.
Proof. induction l as [|x l IH]; simpl; [reflexivity | exact IH]. Qed.

Lemma per_example_sum_nan (rw ew : R) (langs : list str) :
  forall (lg : list (list (list R))) (lb : list (list Z)) (acc : scalar),
    same_shape lg lb = true ->
    existsb (fun b => count_kept b =? 0) lb = true ->
    length langs = length lb ->
    fold_left
      (fun total x =>
         sadd total (calculate_weighted_loss [fst (fst x)] [snd (fst x)] (snd x) rw ew))
      (combine (combine lg lb) langs) acc
    = NaN.
Proof.
  induction langs as [|lang langs IH]; intros lg lb acc Hshape Hex Hlangs.
  - destruct lb; [discriminate Hex | discriminate Hlangs].
  - destruct lb as [|b lb]; [discriminate |].
    destruct lg as [|g lg]; [discriminate |].
    simpl in Hshape, Hex, Hlangs.
    apply andb_true_iff in Hshape as [Hg Hshape]. apply Nat.eqb_eq in Hg.
    cbn [combine fold_left fst snd].
    destruct (Nat.eqb_spec (count_kept b) 0) as [Hb|Hb]; cbn [orb] in Hex.
    + assert (Hnan : calculate_weighted_loss [g] [b] lang rw ew = NaN).
      { unfold calculate_weighted_loss. simpl. rewrite !app_nil_r.
        rewrite (cross_entropy_loss_counted 0 g b Hg Hb). simpl.
        destruct (eqb lang (lit "rust")); [reflexivity |].
        now destruct (eqb lang (lit "elixir")). }
      rewrite Hnan.
      replace (sadd acc NaN) with NaN by now destruct acc.
      apply (sadd_nan_absorbs
               (fun x => calculate_weighted_loss [fst (fst x)] [snd (fst x)]
                           (snd x) rw ew)).
    + apply IH; [exact Hshape | exact Hex | lia].
Qed.

(** X9. In the language-aware path one example whose labels are all ignored
    turns the loss of the whole batch into [nan], whatever the other
    examples and the weights. *)
Theorem weighted_loss_nan_on_unlabelled_example
    (forward : Batch -> list (list (list R)))
    (args : RustElixirArgs) (batch : Batch) (languages : list str) :
  cross_language_learning args = true ->
  language batch = Some languages ->
  length languages = length (labels batch) ->
  same_shape (logits (model forward batch)) (labels batch) = true ->
  existsb (fun b => count_kept b =? 0) (labels batch) = true ->
  batch_loss forward args batch = Ok NaN.
Proof.
  intros Hon Hlang Hlen Hshape Hex.
  unfold batch_loss. rewrite Hon, Hlang.
  destruct (Nat.eqb_spec (length languages) 0) as [E|_].
  - rewrite E in Hlen. destruct (labels batch); [discriminate Hex | discriminate Hlen].
  - remember (labels batch) as lb eqn:Elb.
    cbn [model logits loss] in *.
    remember (forward batch) as lg eqn:Elg.
    unfold enumerate.
    pose proof (weighted_sum_in_order (rust_weight args) (elixir_weight args)
                  languages 0 [] lg [] lb (Real 0)
                  eq_refl eq_refl (same_shape_length lg lb Hshape) Hlen) as Hw.
    cbn [app] in Hw. rewrite Hw.
    now rewrite (per_example_sum_nan (rust_weight args) (elixir_weight args)
                   languages lg lb (Real 0) Hshape Hex Hlen).
Qed.

Lemma weighted_loss_nan_on_unlabelled_example_witness :
  batch_loss Examples.forward Examples.args MoreExamples.padded_batch = Ok NaN.
Proof.
  apply (weighted_loss_nan_on_unlabelled_example Examples.forward Examples.args
           MoreExamples.padded_batch [lit "rust"; lit "elixir"]); reflexivity.
Defined.

(** The model's own loss of the same batch is a number. *)
Example batched_loss_of_padded_batch :
  exists x, loss (model Examples.forward MoreExamples.padded_batch) = Real x.
Proof. eexists. cbv -[Rplus Rminus Rmult Rdiv Rinv exp ln IZR INR]. reflexivity. Qed.

(** ** The figures of the evaluation *)

Lemma fold_left_sadd_real (xs : list R) :
  forall a : R, fold_left sadd (map Real xs) (Real a) = Real (a + rsum xs).
Proof.
  induction xs as [|x xs IH]; intros a; simpl.
  - f_equal. unfold rsum. simpl. ring.
  - rewrite IH. f_equal. unfold rsum. simpl. ring.
Qed.

Lemma evaluation_fold
    (forward : Batch -> list (list (list R)))
    (eval_batches : list Batch) :
  forall acc : scalar * nat,
    fold_left
      (fun acc batch => (sadd (fst acc) (loss (model forward batch)), S (snd acc)))
      eval_batches acc
    = (fold_left sadd (map (fun batch => loss (model forward batch)) eval_batches)
         (fst acc),
       snd acc + length eval_batches).
Proof.
  induction eval_batches as [|batch rest IH]; intros [a n]; simpl.
  - now rewrite Nat.add_0_r.
  - rewrite IH. simpl. f_equal. lia.
Qed.

(** X10. On a non-empty evaluation set whose batch losses are numbers, the
    language-aware driver reports their arithmetic mean: every batch counts
    once, whatever the number of examples and of label tokens it holds. *)
Theorem evaluation_reports
    (forward : Batch -> list (list (list R)))
    (eval_batches : list Batch) (xs : list R) :
  map (fun batch => loss (model forward batch)) eval_batches = map Real xs ->
  0 < length eval_batches ->
  evaluation forward eval_batches = Ok (Real (rsum xs / INR (length xs))).
Proof.
  intros Hxs Hne.
  assert (Hlen : length xs = length eval_batches).
  { apply (f_equal (@length scalar)) in Hxs. now rewrite !length_map in Hxs. }
  unfold evaluation. rewrite evaluation_fold, Hxs. cbn [fst snd].
  rewrite fold_left_sadd_real, <- Hlen.
  destruct (Nat.eqb_spec (0 + length xs) 0); [lia |].
  cbn [sdiv Nat.add]. now rewrite Rplus_0_l.
Qed.

(** Two evaluation batches with four and with three label tokens, and
    different losses. *)
Lemma evaluation_reports_witness :
  exists x y : R,
    evaluation Examples.forward [Examples.even_batch; Examples.uneven_batch]
    = Ok (Real (rsum [x; y] / INR (length [x; y])))
    /\ loss (model Examples.forward Examples.even_batch) = Real x
    /\ loss (model Examples.forward Examples.uneven_batch) = Real y
    /\ (x < y)%R.
Proof.
  eexists. eexists. split.
  { apply (evaluation_reports Examples.forward
             [Examples.even_batch; Examples.uneven_batch] [_; _]).
    - cbv -[Rplus Rminus Rmult Rdiv Rinv exp ln IZR INR]. reflexivity.
    - simpl. lia. }
  split.
  { cbv -[Rplus Rminus Rmult Rdiv Rinv exp ln IZR INR]. reflexivity. }
  split.
  { cbv -[Rplus Rminus Rmult Rdiv Rinv exp ln IZR INR]. reflexivity. }
  pose proof example_token_losses as H. cbv zeta in H.
  destruct H as [HA0 [HA1 [HL2 HLA]]].
  set (A := ln (exp 0 + (exp 0 + 0))) in *.
  set (L := ln (exp 1 + (exp 0 + 0))) in *.
  simpl INR. lra.
Defined.

(** ** The order of a run *)

Lemma rust_elixir_epoch_logged_loss
    (forward : Batch -> list (list (list R)))
    (args : RustElixirArgs) (epoch : nat) (todo : list Batch) :
  forall (step : nat) (g : Accelerate.GradientState)
         (run : Accelerate.GradientState * list event),
    train_epoch forward args epoch step todo g = Ok run ->
    forall (e s : nat) (u : bool) (l : nat * scalar),
      In (Step e s u (Some l)) (snd run) ->
      e = epoch /\ step <= s
      /\ exists batch,
          nth_error todo (s - step) = Some batch
          /\ batch_loss forward args batch = Ok (snd l).
Proof.
  induction todo as [|batch rest IH]; intros step g run H e s u l Hin.
  - injection H as <-. destruct Hin.
  - cbn [train_epoch] in H. bind_inv H. injection H as <-.
    destruct Hin as [Heq|Hin].
    + injection Heq as <- <- _ Hl.
      split; [reflexivity |]. split; [lia |].
      exists batch. rewrite Nat.sub_diag. split; [reflexivity |].
      destruct (Accelerate.sync_gradients a); [| now rewrite Hl in Ha1].
      apply bind_ok_inv in Ha1 as [r [_ Hr]]. rewrite Hl in Hr.
      destruct (r =? 0); [| discriminate Hr].
      injection Hr as <-. exact Ha0.
    + destruct (IH _ _ _ Ha2 e s u l Hin) as [He [Hs [b [Hb Hloss]]]].
      split; [exact He |]. split; [lia |].
      exists b. split; [| exact Hloss].
      replace (s - step) with (S (s - S step)) by lia. exact Hb.
Qed.

Lemma rust_elixir_run_reports
    (forward : Batch -> list (list (list R)))
    (args : RustElixirArgs) (train_dl : DataLoader) (eval_dl : option DataLoader)
    (todo : nat) :
  forall (epoch : nat) (g : Accelerate.GradientState) (trace : list event),
    train_epochs forward args train_dl eval_dl epoch todo g = Ok trace ->
    (forall (e s : nat) (u : bool) (l : nat * scalar),
        In (Step e s u (Some l)) trace ->
        exists batch,
          nth_error (batches train_dl e) s = Some batch
          /\ batch_loss forward args batch = Ok (snd l))
    /\ (forall (e : nat) (report : option scalar),
           In (Eval e report) trace ->
           exists (dl : DataLoader) (avg : scalar),
             eval_dl = Some dl /\ report = Some avg
             /\ evaluation forward (batches dl e) = Ok avg).
Proof.
  induction todo as [|todo IH]; intros epoch g trace H.
  - injection H as <-. split; [intros e s u l [] | intros e report []].
  - cbn [train_epochs] in H. bind_inv H. injection H as <-.
    destruct (IH _ _ _ Ha1) as [IHlogs IHeval]. split.
    + intros e s u l Hin. apply in_app_or in Hin as [Hin|Hin].
      * destruct (rust_elixir_epoch_logged_loss forward args epoch _ _ _ _ Ha
                    e s u l Hin) as [-> [_ [batch [Hb Hloss]]]].
        rewrite Nat.sub_0_r in Hb. now exists batch.
      * apply in_app_or in Hin as [Hin|Hin]; [| exact (IHlogs e s u l Hin)].
        destruct eval_dl as [dl|].
        -- bind_inv Ha0. injection Ha0 as <-.
           destruct Hin as [Hin|[]]. discriminate Hin.
        -- injection Ha0 as <-. destruct Hin.
    + intros e report Hin. apply in_app_or in Hin as [Hin|Hin].
      * exfalso. apply (in_map mark_of) in Hin.
        rewrite (rust_elixir_epoch_marks forward args epoch _ _ _ _ Ha) in Hin.
        apply in_map_iff in Hin as [x [Hx _]]. discriminate Hx.
      * apply in_app_or in Hin as [Hin|Hin]; [| exact (IHeval e report Hin)].
        destruct eval_dl as [dl|].
        -- apply bind_ok_inv in Ha0 as [avg [Havg Hev]]. injection Hev as <-.
           destruct Hin as [Hin|[]]. injection Hin as <- <-.
           now exists dl, avg.
        -- injection Ha0 as <-. destruct Hin.
Qed.

(** X11. The loss the language-aware driver logs at step [s] of epoch [e]
    is the loss of the batch the loader yields at position [s] of that
    epoch, and of that batch alone (the base driver logs a running mean);
    the evaluation loss it reports after epoch [e] is computed from the
    evaluation batches of that epoch. *)
Theorem rust_elixir_reports_batch_losses
    (forward : Batch -> list (list (list R)))
    (args : RustElixirArgs) (train_dl : DataLoader) (eval_dl : option DataLoader)
    (declared : nat) (trace : list event) :
  train forward args train_dl eval_dl = Ok (declared, trace) ->
  (forall (e s : nat) (u : bool) (l : nat * scalar),
      In (Step e s u (Some l)) trace ->
      exists batch,
        nth_error (batches train_dl e) s = Some batch
        /\ batch_loss forward args batch = Ok (snd l))
  /\ (forall (e : nat) (report : option scalar),
         In (Eval e report) trace ->
         exists (dl : DataLoader) (avg : scalar),
           eval_dl = Some dl /\ report = Some avg
           /\ evaluation forward (batches dl e) = Ok avg).
Proof.
  intros H. unfold train in H. bind_inv H. injection H as _ <-.
  exact (rust_elixir_run_reports forward args train_dl eval_dl _ _ _ _ Ha0).
Qed.

Lemma rust_elixir_reports_batch_losses_witness :
  exists (declared : nat) (trace : list event),
    train Examples.forward Examples.args Examples.train_dl
      (Some MoreExamples.eval_dl)
    = Ok (declared, trace)
    /\ (forall (e s : nat) (u : bool) (l : nat * scalar),
           In (Step e s u (Some l)) trace ->
           exists batch,
             nth_error (batches Examples.train_dl e) s = Some batch
             /\ batch_loss Examples.forward Examples.args batch = Ok (snd l))
    /\ (forall (e : nat) (report : option scalar),
           In (Eval e report) trace ->
           exists (dl : DataLoader) (avg : scalar),
             Some MoreExamples.eval_dl = Some dl /\ report = Some avg
             /\ evaluation Examples.forward (batches dl e) = Ok avg).
Proof.
  do 2 eexists. split; [reflexivity |].
  eapply (rust_elixir_reports_batch_losses Examples.forward Examples.args
            Examples.train_dl (Some MoreExamples.eval_dl)).
  reflexivity.
Defined.

(** ** The log of the base driver *)

Lemma logged_lines_app (t1 t2 : list event) :
  logged_lines (t1 ++ t2) = logged_lines t1 + logged_lines t2.
Proof. unfold logged_lines. now rewrite filter_app, length_app. Qed.

Lemma codet5_epoch_logged_lines
    (forward : Batch -> list (list (list R)))
    (args : CodeT5.Args) (main : bool) (epoch : nat) (todo : list Batch) :
  forall (step : nat) (st : CodeT5.LoopState) (run : CodeT5.LoopState * list event),
    CodeT5.train_epoch forward args main epoch step todo st = Ok run ->
    logged_lines (snd run)
    = if main
      then (CodeT5.global_step st + length todo) / CodeT5.log_every args
           - CodeT5.global_step st / CodeT5.log_every args
      else 0.
Proof.
  induction todo as [|batch rest IH]; intros step st run H.
  - injection H as <-. cbn [snd length]. rewrite Nat.add_0_r, Nat.sub_diag.
    now destruct main.
  - cbn [CodeT5.train_epoch] in H. bind_inv H. injection H as <-.
    specialize (IH _ _ _ Ha1). cbn [CodeT5.global_step] in IH.
    cbn [snd length]. unfold logged_lines in *. cbn [filter is_logged].
    destruct main.
    + bind_inv Ha0. unfold py_mod in Ha2.
      destruct (Nat.eqb_spec (CodeT5.log_every args) 0) as [|HL]; [discriminate |].
      injection Ha2 as <-.
      replace (CodeT5.global_step st + S (length rest))
        with (S (CodeT5.global_step st) + length rest) by lia.
      pose proof (div_succ (CodeT5.global_step st) (CodeT5.log_every args)
                    ltac:(lia)) as Hd.
      pose proof (Nat.Div0.div_le_mono (S (CodeT5.global_step st))
                    (S (CodeT5.global_step st) + length rest)
                    (CodeT5.log_every args) ltac:(lia)) as Hm.
      destruct (S (CodeT5.global_step st) mod CodeT5.log_every args =? 0);
        injection Ha0 as <-; cbn [length]; rewrite IH; lia.
    + injection Ha0 as <-. exact IH.
Qed.

Lemma codet5_run_logged_lines
    (forward : Batch -> list (list (list R)))
    (args : CodeT5.Args) (main : bool) (train_dl : DataLoader)
    (eval_dl : option DataLoader) (N : nat) (todo : nat) :
  forall (epoch : nat) (g : Accelerate.GradientState) (gs : nat)
         (trace : list event),
    (forall e, length (batches train_dl e) = N) ->
    CodeT5.train_epochs forward args main train_dl eval_dl epoch todo g gs = Ok trace ->
    logged_lines trace
    = if main
      then (gs + todo * N) / CodeT5.log_every args - gs / CodeT5.log_every args
      else 0.
Proof.
  induction todo as [|todo IH]; intros epoch g gs trace HN H.
  - injection H as <-. cbn [Nat.mul]. rewrite Nat.add_0_r, Nat.sub_diag.
    now destruct main.
  - cbn [CodeT5.train_epochs] in H. bind_inv H. injection H as <-.
    destruct (codet5_epoch_logs forward args main epoch _ _ _ _ Ha) as [Hgs _].
    cbn [CodeT5.global_step] in Hgs. rewrite HN in Hgs.
    rewrite !logged_lines_app.
    rewrite (codet5_epoch_logged_lines forward args main epoch _ _ _ _ Ha).
    cbn [CodeT5.global_step]. rewrite HN.
    change (logged_lines (EpochMean epoch a0 :: a1)) with (logged_lines a1).
    rewrite (IH _ _ _ _ HN Ha1), Hgs.
    assert (He : logged_lines
                   match eval_dl with
                   | Some dl => [Eval epoch (CodeT5.evaluate forward (batches dl epoch))]
                   | None => []
                   end = 0) by now destruct eval_dl.
    rewrite He. destruct main; [| reflexivity].
    replace (gs + N + todo * N) with (gs + S todo * N) by lia.
    pose proof (Nat.Div0.div_le_mono gs (gs + N) (CodeT5.log_every args)
                  ltac:(lia)) as H1.
    pose proof (Nat.Div0.div_le_mono (gs + N) (gs + S todo * N)
                  (CodeT5.log_every args) ltac:(lia)) as H2.
    lia.
Qed.

(** X12. On the main process the base driver logs one line for every
    multiple of the logging interval among the micro-batches of the run:
    [epochs * N / log_every] lines in all, the count running on across
    epochs.  Any other process logs nothing. *)
Theorem codet5_logged_lines
    (forward : Batch -> list (list (list R)))
    (args : CodeT5.Args) (main : bool) (train_dl : DataLoader)
    (eval_dl : option DataLoader) (N declared : nat) (trace : list event) :
  (forall e, length (batches train_dl e) = N) ->
  CodeT5.train forward args main train_dl eval_dl = Ok (declared, trace) ->
  logged_lines trace
  = if main then CodeT5.epochs args * N / CodeT5.log_every args else 0.
Proof.
  intros HN H. unfold CodeT5.train in H. bind_inv H. injection H as _ <-.
  rewrite (codet5_run_logged_lines forward args main train_dl eval_dl N _ _ _ _ _
             HN Ha0).
  destruct main; [| reflexivity].
  cbn [Nat.add]. rewrite Nat.Div0.div_0_l. lia.
Qed.

Lemma codet5_logged_lines_witness :
  exists (declared : nat) (trace : list event),
    CodeT5.train Examples.forward MoreExamples.base_args true Examples.train_dl None
    = Ok (declared, trace)
    /\ logged_lines trace = 1 * 3 / 2.
Proof.
  do 2 eexists. split; [reflexivity |].
  eapply (codet5_logged_lines Examples.forward MoreExamples.base_args true
            Examples.train_dl None 3); reflexivity.
Defined.

(** ** The steps the scheduler is promised *)

Lemma floor_le_ceil (N K E : nat) :
  0 < K ->
  N * E / K <= E * ((N + K - 1) / K)
  /\ (N * E / K = E * ((N + K - 1) / K) <-> E = 0 \/ N mod K = 0).
Proof.
  intros HK.
  pose proof (Nat.div_mod_eq N K) as HN.
  pose proof (Nat.mod_upper_bound N K ltac:(lia)) as Hr.
  set (q := N / K) in *. set (r := N mod K) in *.
  assert (Hceil : (N + K - 1) / K = q + (if r =? 0 then 0 else 1)).
  { destruct (Nat.eqb_spec r 0) as [E0|E0].
    - replace (N + K - 1) with (K - 1 + q * K) by lia.
      rewrite Nat.div_add by lia. rewrite Nat.div_small by lia. lia.
    - replace (N + K - 1) with (r - 1 + (q + 1) * K) by lia.
      rewrite Nat.div_add by lia. rewrite Nat.div_small by lia. lia. }
  assert (Hfloor : N * E / K = q * E + r * E / K).
  { replace (N * E) with (r * E + q * E * K) by lia.
    rewrite Nat.div_add by lia. lia. }
  rewrite Hceil, Hfloor.
  destruct (Nat.eqb_spec r 0) as [E0|E0].
  - rewrite E0. cbn [Nat.mul]. rewrite Nat.Div0.div_0_l. split; [lia |].
    split; [auto | lia].
  - destruct (Nat.eq_dec E 0) as [->|HE].
    + rewrite !Nat.mul_0_r, Nat.Div0.div_0_l. split; [lia |]. split; [auto | lia].
    + assert (Hlt : r * E / K < E).
      { apply Nat.Div0.div_lt_upper_bound. nia. }
      split; [lia |]. split; [lia | intros [H|H]; lia].
Qed.

(** X13. The language-aware driver never promises the scheduler more steps
    than the loop performs, and it promises fewer unless the accumulation
    window divides the number of batches per epoch (or there is no epoch):
    the schedule then ends before the training does. *)
Theorem scheduler_horizon
    (forward : Batch -> list (list (list R)))
    (args : RustElixirArgs) (train_dl : DataLoader) (eval_dl : option DataLoader)
    (N declared : nat) (trace : list event) :
  (forall e, length (batches train_dl e) = N) ->
  len train_dl = N ->
  train forward args train_dl eval_dl = Ok (declared, trace) ->
  declared <= optimizer_updates trace
  /\ (declared = optimizer_updates trace
      <-> epochs args = 0 \/ N mod gradient_accumulation args = 0).
Proof.
  intros HN Hlen H.
  unfold train, num_training_steps, py_floordiv in H. rewrite Hlen in H.
  destruct (Nat.eqb_spec (gradient_accumulation args) 0) as [|HK]; [discriminate |].
  cbn [bind] in H. bind_inv H. injection H as <- <-.
  rewrite (rust_elixir_run_updates forward args train_dl eval_dl N (epochs args)
             0 Accelerate.initial a ltac:(lia) HN eq_refl Ha).
  apply floor_le_ceil. lia.
Qed.

Lemma scheduler_horizon_witness :
  exists (declared : nat) (trace : list event),
    train Examples.forward MoreExamples.even_args Examples.train_dl None
    = Ok (declared, trace)
    /\ declared <= optimizer_updates trace
    /\ (declared = optimizer_updates trace <-> 1 = 0 \/ 3 mod 2 = 0).
Proof.
  do 2 eexists. split; [reflexivity |].
  eapply (scheduler_horizon Examples.forward MoreExamples.even_args
            Examples.train_dl None 3); reflexivity.
Defined.

(** ** Even windows and even logging intervals *)

Lemma even_mod_zero (a b : nat) :
  Nat.even b = true -> a mod b = 0 -> Nat.even a = true.
Proof.
  intros Hb Ha. destruct (Nat.eq_dec b 0) as [->|Hb0].
  - simpl in Ha. now subst a.
  - apply Nat.even_spec. apply Nat.even_spec in Hb as [k Hk].
    pose proof (Nat.div_mod_eq a b) as Hd. rewrite Ha in Hd.
    exists (k * (a / b)). nia.
Qed.

Lemma even_succ_false (s : nat) :
  Nat.even (S s) = true -> Nat.even s = true -> False.
Proof.
  rewrite Nat.even_succ, <- Nat.negb_even. intros H1 H2. rewrite H2 in H1.
  discriminate.
Qed.

(** A micro-batch updates because the window is full or because it is the
    last of the epoch. *)
Lemma rust_elixir_epoch_sync
    (forward : Batch -> list (list (list R)))
    (args : RustElixirArgs) (epoch : nat) (todo : list Batch) :
  forall (step : nat) (g : Accelerate.GradientState)
         (run : Accelerate.GradientState * list event),
    0 < gradient_accumulation args ->
    Accelerate.step g = step ->
    train_epoch forward args epoch step todo g = Ok run ->
    forall (e s : nat) (u : bool) (l : option (nat * scalar)),
      In (Step e s u l) (snd run) ->
      u = true ->
      S s mod gradient_accumulation args = 0 \/ S s = step + length todo.
Proof.
  induction todo as [|batch rest IH]; intros step g run HK Hg H e s u l Hin Hu.
  - injection H as <-. destruct Hin.
  - cbn [train_epoch] in H. bind_inv H. injection H as <-.
    apply accumulate_ok in Ha; [| exact HK].
    destruct Hin as [Heq|Hin].
    + injection Heq as _ <- <- _.
      destruct rest as [|batch' rest']; cbn [is_nil] in Ha; subst a.
      * right. simpl. lia.
      * left. cbn [Accelerate.sync_gradients] in Hu. rewrite Hg in Hu.
        now apply Nat.eqb_eq.
    + assert (Hstep : Accelerate.step a = S step \/ rest = []).
      { destruct rest; [now right | left].
        cbn [is_nil] in Ha. subst a. simpl. now rewrite Hg. }
      destruct Hstep as [Hstep | ->].
      * destruct (IH (S step) a a2 HK Hstep Ha2 e s u l Hin Hu) as [Hfull|Hlast];
          [now left | right; simpl; lia].
      * injection Ha2 as <-. destruct Hin.
Qed.

Lemma rust_elixir_epoch_even
    (forward : Batch -> list (list (list R)))
    (args : RustElixirArgs) (epoch : nat) (todo : list Batch) :
  forall (step : nat) (g : Accelerate.GradientState)
         (run : Accelerate.GradientState * list event),
    0 < gradient_accumulation args ->
    Nat.even (gradient_accumulation args) = true ->
    Nat.even (log_every args) = true ->
    Accelerate.step g = step ->
    train_epoch forward args epoch step todo g = Ok run ->
    (forall (e s : nat) (u : bool) (l : nat * scalar),
        In (Step e s u (Some l)) (snd run) -> S s = step + length todo)
    /\ logged_lines (snd run) <= 1.
Proof.
  intros step g run HK HKe HLe Hg H. split.
  - intros e s u l Hin.
    destruct (rust_elixir_epoch_logs forward args epoch todo step g run H e s u l Hin)
      as [Hu [Hs _]].
    destruct (rust_elixir_epoch_sync forward args epoch todo step g run HK Hg H
                e s u (Some l) Hin Hu) as [Hfull|Hlast]; [| exact Hlast].
    exfalso. apply (even_succ_false s).
    + exact (even_mod_zero (S s) _ HKe Hfull).
    + exact (even_mod_zero s _ HLe Hs).
  - revert step g run Hg H.
    induction todo as [|batch rest IH]; intros step g run Hg H.
    + injection H as <-. unfold logged_lines. simpl. lia.
    + pose proof H as Hrun.
      cbn [train_epoch] in H. bind_inv H. injection H as <-.
      apply accumulate_ok in Ha; [| exact HK].
      destruct rest as [|batch' rest']; cbn [is_nil] in Ha; subst a.
      * injection Ha2 as <-. unfold logged_lines. cbn [snd filter is_logged].
        destruct a1; simpl; lia.
      * rewrite Hg in Ha2. apply IH in Ha2; [| reflexivity].
        unfold logged_lines in *. cbn [snd filter is_logged].
        destruct a1 as [l|]; [| exact Ha2]. exfalso.
        destruct (rust_elixir_epoch_logs forward args epoch _ step g _ Hrun
                    epoch step _ l (or_introl eq_refl)) as [Hu [Hs _]].
        cbn [Accelerate.sync_gradients] in Hu. rewrite Hg in Hu.
        apply Nat.eqb_eq in Hu.
        apply (even_succ_false step).
        -- exact (even_mod_zero (S step) _ HKe Hu).
        -- exact (even_mod_zero step _ HLe Hs).
Qed.

Lemma rust_elixir_run_even
    (forward : Batch -> list (list (list R)))
    (args : RustElixirArgs) (train_dl : DataLoader) (eval_dl : option DataLoader)
    (N : nat) (todo : nat) :
  forall (epoch : nat) (g : Accelerate.GradientState) (trace : list event),
    0 < gradient_accumulation args ->
    Nat.even (gradient_accumulation args) = true ->
    Nat.even (log_every args) = true ->
    (forall e, length (batches train_dl e) = N) ->
    Accelerate.step g = 0 ->
    train_epochs forward args train_dl eval_dl epoch todo g = Ok trace ->
    (forall (e s : nat) (u : bool) (l : nat * scalar),
        In (Step e s u (Some l)) trace -> S s = N)
    /\ logged_lines trace <= todo.
Proof.
  induction todo as [|todo IH]; intros epoch g trace HK HKe HLe HN Hg H.
  - injection H as <-. split; [intros e s u l [] | unfold logged_lines; simpl; lia].
  - cbn [train_epochs] in H. bind_inv H. injection H as <-.
    destruct (rust_elixir_epoch_even forward args epoch (batches train_dl epoch)
                0 g a HK HKe HLe Hg Ha) as [Hlast Hone].
    destruct (rust_elixir_epoch_updates forward args epoch (batches train_dl epoch)
                0 g a HK Hg Ha) as [_ Hs].
    assert (Hs0 : Accelerate.step (fst a) = 0).
    { rewrite Hs. now destruct (batches train_dl epoch). }
    destruct (IH _ _ _ HK HKe HLe HN Hs0 Ha1) as [Hmore Hcount].
    assert (He : forall ev, In ev a0 -> is_logged ev = false).
    { intros ev Hev. destruct eval_dl as [dl|].
      - bind_inv Ha0. injection Ha0 as <-. destruct Hev as [<-|[]]. reflexivity.
      - injection Ha0 as <-. destruct Hev. }
    split.
    + intros e s u l Hin. apply in_app_or in Hin as [Hin|Hin].
      * rewrite (Hlast e s u l Hin), HN. reflexivity.
      * apply in_app_or in Hin as [Hin|Hin]; [| exact (Hmore e s u l Hin)].
        apply He in Hin. discriminate Hin.
    + rewrite !logged_lines_app.
      assert (H0 : logged_lines a0 = 0).
      { unfold logged_lines. destruct a0 as [|ev [|ev' a0]]; [reflexivity | |].
        - simpl. now rewrite (He ev (or_introl eq_refl)).
        - destruct eval_dl as [dl|].
          + bind_inv Ha0. discriminate Ha0.
          + discriminate Ha0. }
      lia.
Qed.

(** X14. When the accumulation window and the logging interval are both
    even, as they are by default (8 and 10), the language-aware driver can
    log a loss only on the last micro-batch of an epoch: at most one line
    per epoch, and none at all when the number of batches is even. *)
Theorem even_settings_log_last_batch_only
    (forward : Batch -> list (list (list R)))
    (args : RustElixirArgs) (train_dl : DataLoader) (eval_dl : option DataLoader)
    (N declared : nat) (trace : list event) :
  Nat.even (gradient_accumulation args) = true ->
  Nat.even (log_every args) = true ->
  (forall e, length (batches train_dl e) = N) ->
  train forward args train_dl eval_dl = Ok (declared, trace) ->
  (forall (e s : nat) (u : bool) (l : nat * scalar),
      In (Step e s u (Some l)) trace -> S s = N)
  /\ logged_lines trace <= epochs args
  /\ (Nat.even N = true -> logged_lines trace = 0).
Proof.
  intros HKe HLe HN H.
  unfold train, num_training_steps, py_floordiv in H.
  destruct (Nat.eqb_spec (gradient_accumulation args) 0) as [|HK]; [discriminate |].
  cbn [bind] in H. bind_inv H. injection H as _ <-.
  destruct (rust_elixir_run_even forward args train_dl eval_dl N (epochs args)
              0 Accelerate.initial a ltac:(lia) HKe HLe HN eq_refl Ha)
    as [Hlast Hcount].
  split; [exact Hlast |]. split; [exact Hcount |].
  intros HNe. unfold logged_lines.
  destruct (filter is_logged a) as [|ev rest] eqn:Ef; [reflexivity |].
  exfalso.
  assert (Hin : In ev (filter is_logged a)) by (rewrite Ef; now left).
  apply filter_In in Hin as [Hin Hlog].
  destruct ev as [e s u [l | ] | ep report | ep m]; try discriminate Hlog.
  pose proof (Hlast e s u l Hin) as HsN.
  destruct (rust_elixir_run_logs forward args train_dl eval_dl _ _ _ _ Ha
              e s u l Hin) as [_ [Hs _]].
  apply (even_succ_false s).
  - now rewrite HsN.
  - exact (even_mod_zero s _ HLe Hs).
Qed.

Lemma even_settings_log_last_batch_only_witness :
  exists (declared : nat) (trace : list event),
    train Examples.forward MoreExamples.even_args Examples.train_dl None
    = Ok (declared, trace)
    /\ (forall (e s : nat) (u : bool) (l : nat * scalar),
           In (Step e s u (Some l)) trace -> S s = 3)
    /\ logged_lines trace <= 1
    /\ (Nat.even 3 = true -> logged_lines trace = 0).
Proof.
  do 2 eexists. split; [reflexivity |].
  eapply (even_settings_log_last_batch_only Examples.forward MoreExamples.even_args
            Examples.train_dl None 3); reflexivity.
Defined.

(** ** A logging interval of zero *)

Lemma only_zero_division_ok {A : Type} (a : A) : only_zero_division (Ok a).
Proof. intros e H. discriminate H. Qed.

Lemma only_zero_division_bind {A B : Type} (c : result A) (k : A -> result B) :
  only_zero_division c ->
  (forall a, only_zero_division (k a)) ->
  only_zero_division (x <- c ;; k x).
Proof.
  intros Hc Hk e H. destruct c as [a|e']; cbn [bind] in H.
  - exact (Hk a e H).
  - injection H as <-. now apply Hc.
Qed.

Lemma only_zero_division_py_mod (a b : nat) : only_zero_division (py_mod a b).
Proof.
  intros e H. unfold py_mod in H. destruct (b =? 0); [| discriminate H].
  now injection H as <-.
Qed.

Lemma only_zero_division_accumulate (K : nat) (last : bool)
    (g : Accelerate.GradientState) :
  only_zero_division (Accelerate.accumulate K last g).
Proof.
  unfold Accelerate.accumulate. destruct last; [apply only_zero_division_ok |].
  apply only_zero_division_bind; [apply only_zero_division_py_mod |].
  intros r. apply only_zero_division_ok.
Qed.

Lemma only_zero_division_batch_loss
    (forward : Batch -> list (list (list R)))
    (args : RustElixirArgs) (batch : Batch) :
  only_zero_division (batch_loss forward args batch).
Proof.
  intros e H. unfold batch_loss in H.
  destruct (cross_language_learning args); [| discriminate H].
  destruct (language batch) as [languages|]; [| discriminate H].
  destruct (length languages =? 0); [| discriminate H]. now injection H as <-.
Qed.

Lemma only_zero_division_rust_elixir_epoch
    (forward : Batch -> list (list (list R)))
    (args : RustElixirArgs) (epoch : nat) (todo : list Batch) :
  forall (step : nat) (g : Accelerate.GradientState),
    only_zero_division (train_epoch forward args epoch step todo g).
Proof.
  induction todo as [|batch rest IH]; intros step g; cbn [train_epoch].
  - apply only_zero_division_ok.
  - apply only_zero_division_bind; [apply only_zero_division_accumulate |].
    intros g1. apply only_zero_division_bind; [apply only_zero_division_batch_loss |].
    intros loss. apply only_zero_division_bind.
    + destruct (Accelerate.sync_gradients g1); [| apply only_zero_division_ok].
      apply only_zero_division_bind; [apply only_zero_division_py_mod |].
      intros r. apply only_zero_division_ok.
    + intros logged. apply only_zero_division_bind; [apply IH |].
      intros more. apply only_zero_division_ok.
Qed.

Lemma only_zero_division_codet5_epoch
    (forward : Batch -> list (list (list R)))
    (args : CodeT5.Args) (main : bool) (epoch : nat) (todo : list Batch) :
  forall (step : nat) (st : CodeT5.LoopState),
    only_zero_division (CodeT5.train_epoch forward args main epoch step todo st).
Proof.
  induction todo as [|batch rest IH]; intros step st; cbn [CodeT5.train_epoch].
  - apply only_zero_division_ok.
  - apply only_zero_division_bind; [apply only_zero_division_accumulate |].
    intros g1. apply only_zero_division_bind.
    + destruct main; [| apply only_zero_division_ok].
      apply only_zero_division_bind; [apply only_zero_division_py_mod |].
      intros r. apply only_zero_division_ok.
    + intros logged. apply only_zero_division_bind; [apply IH |].
      intros more. apply only_zero_division_ok.
Qed.

(** An epoch over at least one batch needs a logging interval: the
    language-aware driver asks for it on the last micro-batch at the latest,
    the base driver, on the main process, on the first. *)
Lemma rust_elixir_epoch_needs_interval
    (forward : Batch -> list (list (list R)))
    (args : RustElixirArgs) (epoch : nat) (todo : list Batch) :
  forall (step : nat) (g : Accelerate.GradientState)
         (run : Accelerate.GradientState * list event),
    train_epoch forward args epoch step todo g = Ok run ->
    0 < length todo ->
    log_every args <> 0.
Proof.
  induction todo as [|batch rest IH]; intros step g run H Hlen; [simpl in Hlen; lia |].
  cbn [train_epoch] in H. bind_inv H.
  destruct rest as [|batch' rest'].
  - cbn [is_nil Accelerate.accumulate] in Ha. injection Ha as <-.
    cbn [Accelerate.sync_gradients] in Ha1.
    apply bind_ok_inv in Ha1 as [r [Hr _]]. unfold py_mod in Hr.
    intros HL. rewrite HL in Hr. discriminate Hr.
  - apply (IH _ _ _ Ha2). simpl. lia.
Qed.

Lemma codet5_epoch_needs_interval
    (forward : Batch -> list (list (list R)))
    (args : CodeT5.Args) (epoch step : nat) (todo : list Batch)
    (st : CodeT5.LoopState) (run : CodeT5.LoopState * list event) :
  CodeT5.train_epoch forward args true epoch step todo st = Ok run ->
  0 < length todo ->
  CodeT5.log_every args <> 0.
Proof.
  intros H Hlen. destruct todo as [|batch rest]; [simpl in Hlen; lia |].
  cbn [CodeT5.train_epoch] in H. bind_inv H.
  apply bind_ok_inv in Ha0 as [r [Hr _]]. unfold py_mod in Hr.
  intros HL. rewrite HL in Hr. discriminate Hr.
Qed.

Lemma codet5_epoch_returns_quiet
    (forward : Batch -> list (list (list R)))
    (args : CodeT5.Args) (epoch : nat) (todo : list Batch) :
  forall (step : nat) (st : CodeT5.LoopState),
    0 < CodeT5.gradient_accumulation args ->
    exists run, CodeT5.train_epoch forward args false epoch step todo st = Ok run.
Proof.
  induction todo as [|batch rest IH]; intros step st HK.
  - simpl. eauto.
  - cbn [CodeT5.train_epoch].
    assert (Hacc : exists g1,
               Accelerate.accumulate (CodeT5.gradient_accumulation args)
                 (is_nil rest) (CodeT5.gradient_state st)
               = Ok g1).
    { unfold Accelerate.accumulate. destruct (is_nil rest); [eauto |].
      rewrite py_mod_pos by exact HK. simpl. eauto. }
    destruct Hacc as [g1 ->]. cbn [bind].
    match goal with
    | |- context [CodeT5.train_epoch forward args false epoch (S step) rest ?st'] =>
        destruct (IH (S step) st' HK) as [run ->]
    end.
    simpl. eauto.
Qed.

(** X15. With a logging interval of zero and at least one training batch,
    both drivers stop with a division by zero in their first epoch, the
    base driver on the main process only: since the interval is not read on
    the other processes, they complete the run. *)
Theorem zero_logging_interval
    (forward : Batch -> list (list (list R)))
    (rargs : RustElixirArgs) (cargs : CodeT5.Args)
    (train_dl : DataLoader) (eval_dl eval_dl' : option DataLoader) :
  log_every rargs = 0 ->
  CodeT5.log_every cargs = 0 ->
  0 < epochs rargs ->
  0 < CodeT5.epochs cargs ->
  0 < CodeT5.gradient_accumulation cargs ->
  0 < length (batches train_dl 0) ->
  0 < len train_dl ->
  train forward rargs train_dl eval_dl = Raise ZeroDivisionError
  /\ CodeT5.train forward cargs true train_dl eval_dl' = Raise ZeroDivisionError
  /\ exists declared trace,
      CodeT5.train forward cargs false train_dl eval_dl' = Ok (declared, trace).
Proof.
  intros HLr HLc HEr HEc HKc Hbatches Hlen. split; [| split].
  - destruct (train forward rargs train_dl eval_dl) as [[declared trace]|e] eqn:H.
    + exfalso. unfold train in H. bind_inv H.
      destruct (epochs rargs) as [|todo]; [lia |].
      cbn [train_epochs] in Ha0. bind_inv Ha0.
      exact (rust_elixir_epoch_needs_interval forward rargs 0 _ _ _ _ Ha1 Hbatches HLr).
    + f_equal. revert H. unfold train, num_training_steps, py_floordiv.
      destruct (gradient_accumulation rargs =? 0); [now intros [= <-] |].
      cbn [bind]. destruct (epochs rargs) as [|todo]; [lia |].
      cbn [train_epochs].
      destruct (train_epoch forward rargs 0 0 (batches train_dl 0) Accelerate.initial)
        as [run|e'] eqn:Hrun.
      * exfalso.
        exact (rust_elixir_epoch_needs_interval forward rargs 0 _ _ _ _ Hrun
                 Hbatches HLr).
      * cbn [bind]. intros [= <-].
        exact (only_zero_division_rust_elixir_epoch forward rargs 0 _ _ _ _ Hrun).
  - unfold CodeT5.train, CodeT5.max_train_steps, py_ceildiv.
    destruct (Nat.eqb_spec (CodeT5.gradient_accumulation cargs) 0); [lia |].
    cbn [bind]. destruct (CodeT5.epochs cargs) as [|todo]; [lia |].
    cbn [CodeT5.train_epochs].
    match goal with
    | |- context [CodeT5.train_epoch forward cargs true 0 0 ?l ?st] =>
        destruct (CodeT5.train_epoch forward cargs true 0 0 l st) as [run|e] eqn:Hrun
    end.
    + exfalso.
      exact (codet5_epoch_needs_interval forward cargs 0 0 _ _ _ Hrun Hbatches HLc).
    + cbn [bind]. f_equal.
      exact (only_zero_division_codet5_epoch forward cargs true 0 _ _ _ _ Hrun).
  - unfold CodeT5.train, CodeT5.max_train_steps, py_ceildiv.
    destruct (Nat.eqb_spec (CodeT5.gradient_accumulation cargs) 0); [lia |].
    cbn [bind].
    assert (H : forall todo epoch g gs,
               exists trace,
                 CodeT5.train_epochs forward cargs false train_dl eval_dl' epoch
                   todo g gs
                 = Ok trace).
    { induction todo as [|todo IH]; intros epoch g gs; [simpl; eauto |].
      cbn [CodeT5.train_epochs].
      match goal with
      | |- context [CodeT5.train_epoch forward cargs false epoch 0 ?l ?st] =>
          destruct (codet5_epoch_returns_quiet forward cargs epoch l 0 st HKc)
            as [run ->]
      end.
      cbn [bind]. unfold CodeT5.epoch_mean.
      destruct (Nat.eqb_spec (len train_dl) 0); [lia |]. cbn [bind].
      destruct (IH (S epoch) (CodeT5.gradient_state (fst run))
                  (CodeT5.global_step (fst run))) as [more ->].
      simpl. eauto. }
    destruct (H (CodeT5.epochs cargs) 0 Accelerate.initial 0) as [trace ->].
    simpl. eauto.
Qed.

Lemma zero_logging_interval_witness :
  train Examples.forward MoreExamples.silent_args Examples.train_dl None
  = Raise ZeroDivisionError
  /\ CodeT5.train Examples.forward MoreExamples.silent_base_args true
       Examples.train_dl None
     = Raise ZeroDivisionError
  /\ exists declared trace,
      CodeT5.train Examples.forward MoreExamples.silent_base_args false
        Examples.train_dl None
      = Ok (declared, trace).
Proof.
  apply (zero_logging_interval Examples.forward MoreExamples.silent_args
           MoreExamples.silent_base_args Examples.train_dl None None);
    try reflexivity; simpl; lia.
Defined.

(** ** Which micro-batches update *)

Lemma rust_elixir_epoch_update_positions
    (forward : Batch -> list (list (list R)))
    (args : RustElixirArgs) (epoch : nat) (todo : list Batch) :
  forall (step : nat) (g : Accelerate.GradientState)
         (run : Accelerate.GradientState * list event),
    0 < gradient_accumulation args ->
    Accelerate.step g = step ->
    train_epoch forward args epoch step todo g = Ok run ->
    forall (e s : nat) (u : bool) (l : option (nat * scalar)),
      In (Step e s u l) (snd run) ->
      u = (S s mod gradient_accumulation args =? 0) || (S s =? step + length todo).
Proof.
  induction todo as [|batch rest IH]; intros step g run HK Hg H e s u l Hin.
  - injection H as <-. destruct Hin.
  - cbn [train_epoch] in H. bind_inv H. injection H as <-.
    apply accumulate_ok in Ha; [| exact HK].
    destruct rest as [|batch' rest']; cbn [is_nil] in Ha; subst a.
    + injection Ha2 as <-. destruct Hin as [Heq|[]].
      injection Heq as _ <- <- _. cbn [Accelerate.sync_gradients length].
      replace (S step =? step + 1) with true by (symmetry; apply Nat.eqb_eq; lia).
      now rewrite orb_true_r.
    + destruct Hin as [Heq|Hin].
      * injection Heq as _ <- <- _. cbn [Accelerate.sync_gradients]. rewrite Hg.
        replace (S step =? step + length (batch :: batch' :: rest')) with false
          by (symmetry; apply Nat.eqb_neq; simpl; lia).
        now rewrite orb_false_r.
      * rewrite Hg in Ha2.
        assert (Hu : u = (S s mod gradient_accumulation args =? 0)
                         || (S s =? S step + length (batch' :: rest'))).
        { eapply (IH (S step)); [exact HK | | exact Ha2 | exact Hin]; reflexivity. }
        rewrite Hu. do 2 f_equal. simpl. lia.
Qed.

Lemma codet5_epoch_update_positions
    (forward : Batch -> list (list (list R)))
    (args : CodeT5.Args) (main : bool) (epoch : nat) (todo : list Batch) :
  forall (step : nat) (st : CodeT5.LoopState) (run : CodeT5.LoopState * list event),
    0 < CodeT5.gradient_accumulation args ->
    Accelerate.step (CodeT5.gradient_state st) = step ->
    CodeT5.train_epoch forward args main epoch step todo st = Ok run ->
    forall (e s : nat) (u : bool) (l : option (nat * scalar)),
      In (Step e s u l) (snd run) ->
      u = (S s mod CodeT5.gradient_accumulation args =? 0)
          || (S s =? step + length todo).
Proof.
  induction todo as [|batch rest IH]; intros step st run HK Hg H e s u l Hin.
  - injection H as <-. destruct Hin.
  - cbn [CodeT5.train_epoch] in H. bind_inv H. injection H as <-.
    apply accumulate_ok in Ha; [| exact HK].
    destruct rest as [|batch' rest']; cbn [is_nil] in Ha; subst a.
    + injection Ha1 as <-. destruct Hin as [Heq|[]].
      injection Heq as _ <- <- _. cbn [Accelerate.sync_gradients length].
      replace (S step =? step + 1) with true by (symmetry; apply Nat.eqb_eq; lia).
      now rewrite orb_true_r.
    + destruct Hin as [Heq|Hin].
      * injection Heq as _ <- <- _. cbn [Accelerate.sync_gradients]. rewrite Hg.
        replace (S step =? step + length (batch :: batch' :: rest')) with false
          by (symmetry; apply Nat.eqb_neq; simpl; lia).
        now rewrite orb_false_r.
      * rewrite Hg in Ha1.
        assert (Hu : u = (S s mod CodeT5.gradient_accumulation args =? 0)
                         || (S s =? S step + length (batch' :: rest'))).
        { eapply (IH (S step)); [exact HK | | exact Ha1 | exact Hin]; reflexivity. }
        rewrite Hu. do 2 f_equal. simpl. lia.
Qed.

Lemma rust_elixir_run_update_positions
    (forward : Batch -> list (list (list R)))
    (args : RustElixirArgs) (train_dl : DataLoader) (eval_dl : option DataLoader)
    (N : nat) (todo : nat) :
  forall (epoch : nat) (g : Accelerate.GradientState) (trace : list event),
    0 < gradient_accumulation args ->
    (forall e, length (batches train_dl e) = N) ->
    Accelerate.step g = 0 ->
    train_epochs forward args train_dl eval_dl epoch todo g = Ok trace ->
    forall (e s : nat) (u : bool) (l : option (nat * scalar)),
      In (Step e s u l) trace ->
      u = (S s mod gradient_accumulation args =? 0) || (S s =? N).
Proof.
  induction todo as [|todo IH]; intros epoch g trace HK HN Hg H e s u l Hin.
  - injection H as <-. destruct Hin.
  - cbn [train_epochs] in H. bind_inv H. injection H as <-.
    destruct (rust_elixir_epoch_updates forward args epoch (batches train_dl epoch)
                0 g a HK Hg Ha) as [_ Hs].
    assert (Hs0 : Accelerate.step (fst a) = 0).
    { rewrite Hs. now destruct (batches train_dl epoch). }
    apply in_app_or in Hin as [Hin|Hin].
    + rewrite (rust_elixir_epoch_update_positions forward args epoch _ 0 g a
                 HK Hg Ha e s u l Hin), HN.
      reflexivity.
    + apply in_app_or in Hin as [Hin|Hin]; [| exact (IH _ _ _ HK HN Hs0 Ha1 e s u l Hin)].
      destruct eval_dl as [dl|].
      * bind_inv Ha0. injection Ha0 as <-. destruct Hin as [Hin|[]]. discriminate Hin.
      * injection Ha0 as <-. destruct Hin.
Qed.

Lemma codet5_run_update_positions
    (forward : Batch -> list (list (list R)))
    (args : CodeT5.Args) (main : bool) (train_dl : DataLoader)
    (eval_dl : option DataLoader) (N : nat) (todo : nat) :
  forall (epoch : nat) (g : Accelerate.GradientState) (gs : nat)
         (trace : list event),
    0 < CodeT5.gradient_accumulation args ->
    (forall e, length (batches train_dl e) = N) ->
    Accelerate.step g = 0 ->
    CodeT5.train_epochs forward args main train_dl eval_dl epoch todo g gs = Ok trace ->
    forall (e s : nat) (u : bool) (l : option (nat * scalar)),
      In (Step e s u l) trace ->
      u = (S s mod CodeT5.gradient_accumulation args =? 0) || (S s =? N).
Proof.
  induction todo as [|todo IH]; intros epoch g gs trace HK HN Hg H e s u l Hin.
  - injection H as <-. destruct Hin.
  - cbn [CodeT5.train_epochs] in H. bind_inv H. injection H as <-.
    destruct (codet5_epoch_updates forward args main epoch (batches train_dl epoch)
                0 {| CodeT5.gradient_state := g;
                     CodeT5.total_loss := Real 0;
                     CodeT5.global_step := gs |} a HK Hg Ha) as [_ Hs].
    assert (Hs0 : Accelerate.step (CodeT5.gradient_state (fst a)) = 0).
    { rewrite Hs. now destruct (batches train_dl epoch). }
    apply in_app_or in Hin as [Hin|Hin].
    + rewrite (codet5_epoch_update_positions forward args main epoch _ 0
                 {| CodeT5.gradient_state := g;
                    CodeT5.total_loss := Real 0;
                    CodeT5.global_step := gs |} a HK Hg Ha e s u l Hin), HN.
      reflexivity.
    + apply in_app_or in Hin as [Hin|Hin].
      * destruct eval_dl as [dl|]; [destruct Hin as [Hin|[]]; discriminate Hin
                                   | destruct Hin].
      * destruct Hin as [Hin|Hin]; [discriminate Hin |].
        exact (IH _ _ _ _ HK HN Hs0 Ha1 e s u l Hin).
Qed.

(** X16. In both drivers the optimizer update is applied on exactly those
    micro-batches that complete a window of the epoch or are the last of
    the epoch: windows never run across an epoch boundary, and no gradient
    is left unapplied at the end of an epoch. *)
Theorem update_positions
    (forward : Batch -> list (list (list R)))
    (rargs : RustElixirArgs) (cargs : CodeT5.Args) (main : bool)
    (train_dl : DataLoader) (eval_dl eval_dl' : option DataLoader) (N : nat)
    (declared_r declared_c : nat) (trace_r trace_c : list event) :
  (forall e, length (batches train_dl e) = N) ->
  train forward rargs train_dl eval_dl = Ok (declared_r, trace_r) ->
  CodeT5.train forward cargs main train_dl eval_dl' = Ok (declared_c, trace_c) ->
  (forall (e s : nat) (u : bool) (l : option (nat * scalar)),
      In (Step e s u l) trace_r ->
      u = (S s mod gradient_accumulation rargs =? 0) || (S s =? N))
  /\ (forall (e s : nat) (u : bool) (l : option (nat * scalar)),
         In (Step e s u l) trace_c ->
         u = (S s mod CodeT5.gradient_accumulation cargs =? 0) || (S s =? N)).
Proof.
  intros HN Hr Hc.
  unfold train, num_training_steps, py_floordiv in Hr.
  unfold CodeT5.train, CodeT5.max_train_steps, py_ceildiv in Hc.
  destruct (Nat.eqb_spec (gradient_accumulation rargs) 0) as [|HKr];
    [discriminate |].
  destruct (Nat.eqb_spec (CodeT5.gradient_accumulation cargs) 0) as [|HKc];
    [discriminate |].
  cbn [bind] in Hr, Hc. bind_inv Hr. bind_inv Hc.
  injection Hr as _ <-. injection Hc as _ <-. split.
  - eapply rust_elixir_run_update_positions; [| exact HN | | exact Ha];
      [lia | reflexivity].
  - eapply codet5_run_update_positions; [| exact HN | | exact Ha0];
      [lia | reflexivity].
Qed.

Lemma update_positions_witness :
  exists (declared_r declared_c : nat) (trace_r trace_c : list event),
    train Examples.forward Examples.args Examples.train_dl None
    = Ok (declared_r, trace_r)
    /\ CodeT5.train Examples.forward Examples.base_args true Examples.train_dl None
       = Ok (declared_c, trace_c)
    /\ (forall (e s : nat) (u : bool) (l : option (nat * scalar)),
           In (Step e s u l) trace_r -> u = (S s mod 2 =? 0) || (S s =? 3))
    /\ (forall (e s : nat) (u : bool) (l : option (nat * scalar)),
           In (Step e s u l) trace_c -> u = (S s mod 2 =? 0) || (S s =? 3)).
Proof.
  do 4 eexists.
  split; [reflexivity |]. split; [reflexivity |].
  eapply (update_positions Examples.forward Examples.args Examples.base_args true
            Examples.train_dl None None 3); reflexivity.
Defined.

(** ** The running loss of the base driver *)

Lemma codet5_epoch_running_loss
    (forward : Batch -> list (list (list R)))
    (args : CodeT5.Args) (main : bool) (epoch : nat) (todo : list Batch) :
  forall (step : nat) (st : CodeT5.LoopState) (run : CodeT5.LoopState * list event),
    CodeT5.train_epoch forward args main epoch step todo st = Ok run ->
    CodeT5.total_loss (fst run)
    = fold_left sadd (map (fun batch => loss (model forward batch)) todo)
        (CodeT5.total_loss st)
    /\ forall (e s : nat) (u : bool) (l : nat * scalar),
        In (Step e s u (Some l)) (snd run) ->
        step <= s < step + length todo
        /\ snd l
           = sdiv (fold_left sadd
                     (map (fun batch => loss (model forward batch))
                        (firstn (S (s - step)) todo))
                     (CodeT5.total_loss st))
               (s + 1).
Proof.
  induction todo as [|batch rest IH]; intros step st run H.
  - injection H as <-. split; [reflexivity | intros e s u l []].
  - cbn [CodeT5.train_epoch] in H. bind_inv H. injection H as <-.
    destruct (IH _ _ _ Ha1) as [Htotal Hlogs]. cbn [CodeT5.total_loss] in Htotal, Hlogs.
    cbn [fst snd]. split; [exact Htotal |].
    intros e s u l [Heq|Hin].
    + injection Heq as _ <- _ ->.
      destruct main; [| discriminate].
      apply bind_ok_inv in Ha0 as [r [_ Hr]].
      destruct (r =? 0); [| discriminate]. injection Hr as <-.
      cbn [snd length]. rewrite Nat.sub_diag. split; [lia | reflexivity].
    + destruct (Hlogs e s u l Hin) as [Hs Hl]. split; [simpl; lia |].
      rewrite Hl. replace (S (s - step)) with (S (S (s - S step))) by lia.
      reflexivity.
Qed.

Lemma codet5_run_running_loss
    (forward : Batch -> list (list (list R)))
    (args : CodeT5.Args) (main : bool) (train_dl : DataLoader)
    (eval_dl : option DataLoader) (todo : nat) :
  forall (epoch : nat) (g : Accelerate.GradientState) (gs : nat)
         (trace : list event),
    (forall e, length (batches train_dl e) = len train_dl) ->
    CodeT5.train_epochs forward args main train_dl eval_dl epoch todo g gs = Ok trace ->
    (forall (e s : nat) (u : bool) (l : nat * scalar),
        In (Step e s u (Some l)) trace ->
        snd l
        = CodeT5.mean (map (fun batch => loss (model forward batch))
                         (firstn (S s) (batches train_dl e))))
    /\ (forall (e : nat) (m : scalar),
           In (EpochMean e m) trace ->
           m = CodeT5.mean (map (fun batch => loss (model forward batch))
                              (batches train_dl e))).
Proof.
  induction todo as [|todo IH]; intros epoch g gs trace HN H.
  - injection H as <-. split; [intros e s u l [] | intros e m []].
  - cbn [CodeT5.train_epochs] in H. bind_inv H. injection H as <-.
    destruct (codet5_epoch_running_loss forward args main epoch _ _ _ _ Ha)
      as [Htotal Hlogs].
    cbn [CodeT5.total_loss] in Htotal, Hlogs.
    destruct (IH _ _ _ _ HN Ha1) as [IHlogs IHmean].
    assert (Hepoch : forall e s u l,
               In (Step e s u (Some l)) (snd a) -> e = epoch).
    { intros e s u l Hin.
      destruct (codet5_epoch_logs forward args main epoch _ _ _ _ Ha) as [_ Hl].
      now destruct (Hl e s u l Hin) as [_ [He _]]. }
    split.
    + intros e s u l Hin. apply in_app_or in Hin as [Hin|Hin].
      * rewrite (Hepoch e s u l Hin).
        destruct (Hlogs e s u l Hin) as [Hs Hl]. rewrite Hl, Nat.sub_0_r.
        unfold CodeT5.mean. rewrite length_map, length_firstn.
        replace (Nat.min (S s) (length (batches train_dl epoch))) with (s + 1) by lia.
        reflexivity.
      * apply in_app_or in Hin as [Hin|Hin].
        -- destruct eval_dl as [dl|]; [destruct Hin as [Hin|[]]; discriminate Hin
                                      | destruct Hin].
        -- destruct Hin as [Hin|Hin]; [discriminate Hin | exact (IHlogs e s u l Hin)].
    + intros e m Hin. apply in_app_or in Hin as [Hin|Hin].
      * exfalso. apply (in_map mark_of) in Hin.
        rewrite (codet5_epoch_marks forward args main epoch _ _ _ _ Ha) in Hin.
        apply in_map_iff in Hin as [x [Hx _]]. discriminate Hx.
      * apply in_app_or in Hin as [Hin|Hin].
        -- destruct eval_dl as [dl|]; [destruct Hin as [Hin|[]]; discriminate Hin
                                      | destruct Hin].
        -- destruct Hin as [Hin|Hin]; [| exact (IHmean e m Hin)].
           injection Hin as <- <-. unfold CodeT5.epoch_mean in Ha0.
           destruct (Nat.eqb_spec (len train_dl) 0) as [E0|E0].
           ++ pose proof (HN epoch) as HNe. rewrite E0 in HNe.
              destruct (batches train_dl epoch); [discriminate Ha0 | discriminate HNe].
           ++ injection Ha0 as <-. rewrite Htotal. unfold CodeT5.mean.
              now rewrite length_map, HN.
Qed.

(** X17. The loss the base driver logs is the mean of the losses of the
    current epoch so far, and the mean it prints after an epoch is the mean
    of that epoch's batch losses: the accumulator starts afresh in every
    epoch. *)
Theorem codet5_running_loss
    (forward : Batch -> list (list (list R)))
    (args : CodeT5.Args) (main : bool) (train_dl : DataLoader)
    (eval_dl : option DataLoader) (declared : nat) (trace : list event) :
  (forall e, length (batches train_dl e) = len train_dl) ->
  CodeT5.train forward args main train_dl eval_dl = Ok (declared, trace) ->
  (forall (e s : nat) (u : bool) (l : nat * scalar),
      In (Step e s u (Some l)) trace ->
      snd l
      = CodeT5.mean (map (fun batch => loss (model forward batch))
                       (firstn (S s) (batches train_dl e))))
  /\ (forall (e : nat) (m : scalar),
         In (EpochMean e m) trace ->
         m = CodeT5.mean (map (fun batch => loss (model forward batch))
                            (batches train_dl e))).
Proof.
  intros HN H. unfold CodeT5.train in H. bind_inv H. injection H as _ <-.
  exact (codet5_run_running_loss forward args main train_dl eval_dl _ _ _ _ _ HN Ha0).
Qed.

Lemma codet5_running_loss_witness :
  exists (declared : nat) (trace : list event),
    CodeT5.train Examples.forward Examples.base_args true Examples.train_dl None
    = Ok (declared, trace)
    /\ (forall (e s : nat) (u : bool) (l : nat * scalar),
           In (Step e s u (Some l)) trace ->
           snd l
           = CodeT5.mean (map (fun batch => loss (model Examples.forward batch))
                            (firstn (S s) (batches Examples.train_dl e))))
    /\ (forall (e : nat) (m : scalar),
           In (EpochMean e m) trace ->
           m = CodeT5.mean (map (fun batch => loss (model Examples.forward batch))
                              (batches Examples.train_dl e))).
Proof.
  do 2 eexists. split; [reflexivity |].
  eapply (codet5_running_loss Examples.forward Examples.base_args true
            Examples.train_dl None); reflexivity.
Defined.
